(** * A shallow embedding of [src/app.py]

    The file is a Flask application with three routes ([/get-data],
    [/analyze-hedge], [/portfolio-metrics]) and two helpers
    ([generate_regression_data], [generate_data]).  Everything below is a
    pure-functional rendering of that code:

    - Python exceptions are an explicit [result] type, and [try ... except
      Exception] is [try_except];
    - [request.args] is an association list of query parameters;
    - the market-data provider ([yfinance]), the wall clock and the two
      collaborator modules ([hedge_analysis], [montecarlo]) are Section
      variables of the application;
    - numbers that flow through NumPy are extended reals ([npfloat]): exact
      real arithmetic together with the special values [inf] and [nan] that
      NumPy produces instead of raising;
    - [print] calls write to the server log only and are left out. *)

From Stdlib Require Import Reals Lra Lia Psatz ZArith List String Ascii Bool.
Import ListNotations.

(* ====================================================================== *)
(** ** Python runtime: exceptions, truthiness, strings, dictionaries *)
(* ====================================================================== *)

Module Py.

(** An exception carries the name of its class and the text of [str(e)]. *)
Record exn : Type := mk_exn { exn_class : string; exn_msg : string }.

Inductive result (A : Type) : Type :=
| Ok (a : A)
| Raise (e : exn).
Arguments Ok {A} a.
Arguments Raise {A} e.

Definition bind {A B : Type} (c : result A) (k : A -> result B) : result B :=
  match c with
  | Ok a => k a
  | Raise e => Raise e
  end.

(** [try: body except Exception as e: handler e] for a body that ends in
    [return]. *)
Definition try_except {A : Type} (body : result A) (handler : exn -> A) : A :=
  match body with
  | Ok a => a
  | Raise e => handler e
  end.

(** Truthiness of a value that is either [None] or a [str]: only a non-empty
    string is true. *)
Definition truthy (v : option string) : bool :=
  match v with
  | Some (String _ _) => true
  | _ => false
  end.

(** [str.lower] on the ASCII letters (the bytes of any other character are
    left alone). *)
Definition lower_ascii (c : ascii) : ascii :=
  let n := nat_of_ascii c in
  if (65 <=? n)%nat && (n <=? 90)%nat then ascii_of_nat (n + 32) else c.

Fixpoint lower (s : string) : string :=
  match s with
  | EmptyString => EmptyString
  | String c r => String (lower_ascii c) (lower r)
  end.

(** [s.split(sep)] for a one-character separator: never the empty list. *)
Fixpoint split (sep : ascii) (s : string) : list string :=
  match s with
  | EmptyString => [EmptyString]
  | String c r =>
      if Ascii.eqb c sep then EmptyString :: split sep r
      else match split sep r with
           | h :: t => String c h :: t
           | [] => [String c EmptyString]
           end
  end.

(** [repr(s)] for a [str]: single quotes, unless the text has a single quote
    and no double quote; the quote in use, the backslash and the control
    characters are escaped.  Characters outside ASCII are taken to be
    printable and are kept. *)
Definition squote : ascii := ascii_of_nat 39.
Definition dquote : ascii := ascii_of_nat 34.
Definition backslash : ascii := ascii_of_nat 92.

Definition hex_digit (n : nat) : ascii :=
  if (n <? 10)%nat then ascii_of_nat (48 + n) else ascii_of_nat (87 + n).

Definition repr_char (quote c : ascii) : string :=
  let n := nat_of_ascii c in
  if Ascii.eqb c backslash then String backslash (String backslash EmptyString)
  else if Ascii.eqb c quote then String backslash (String quote EmptyString)
  else if (n =? 9)%nat then String backslash (String "t" EmptyString)
  else if (n =? 10)%nat then String backslash (String "n" EmptyString)
  else if (n =? 13)%nat then String backslash (String "r" EmptyString)
  else if (n <? 32)%nat || (n =? 127)%nat then
    String backslash
      (String "x"
         (String (hex_digit (n / 16))
            (String (hex_digit (n mod 16)) EmptyString)))
  else String c EmptyString.

Fixpoint repr_body (quote : ascii) (s : string) : string :=
  match s with
  | EmptyString => EmptyString
  | String c r => String.append (repr_char quote c) (repr_body quote r)
  end.

Fixpoint has_char (c : ascii) (s : string) : bool :=
  match s with
  | EmptyString => false
  | String c' r => Ascii.eqb c' c || has_char c r
  end.

Definition repr (s : string) : string :=
  let quote :=
    if has_char squote s && negb (has_char dquote s) then dquote else squote in
  String quote (String.append (repr_body quote s) (String quote EmptyString)).

(** A [dict] with string keys keeps insertion order; assigning to a key that
    is already there replaces the value in place. *)
Fixpoint dict_set {V : Type} (k : string) (v : V) (d : list (string * V))
  : list (string * V) :=
  match d with
  | [] => [(k, v)]
  | (k', v') :: r =>
      if String.eqb k k' then (k, v) :: r else (k', v') :: dict_set k v r
  end.

(** [{k: v for k, v in pairs}]. *)
Definition dict_of_pairs {V : Type} (pairs : list (string * V))
  : list (string * V) :=
  fold_left (fun d kv => dict_set (fst kv) (snd kv) d) pairs [].

Fixpoint dict_lookup {V : Type} (k : string) (d : list (string * V))
  : option V :=
  match d with
  | [] => None
  | (k', v) :: r => if String.eqb k k' then Some v else dict_lookup k r
  end.

(** [d.get(k, default)]. *)
Definition dict_get {V : Type} (k : string) (default : V)
  (d : list (string * V)) : V :=
  match dict_lookup k d with
  | Some v => v
  | None => default
  end.

End Py.

(* ====================================================================== *)
(** ** NumPy scalars *)
(* ====================================================================== *)

Module NumPy.

Local Open Scope R_scope.

(** A [numpy.float64] up to rounding: a real number, an infinity or [nan].
    Signed zeros are not told apart (a zero divisor counts as [+0.0], which
    is what [np.sqrt] returns).  Arithmetic on [Fin] is exact: an equality
    between two computed numbers below is the equality of exact arithmetic,
    which the code's float64 results meet within floating-point tolerance
    only. *)
Inductive npfloat : Type :=
| Fin (r : R)
| Inf (negative : bool)
| NaN.

Definition Rneg (x : R) : bool := if Rlt_dec x 0 then true else false.

(** [a / b] on [numpy.float64]: a zero divisor gives [nan] or an infinity
    (with a [RuntimeWarning]); no exception is raised. *)
Definition np_div (a b : npfloat) : npfloat :=
  match a, b with
  | NaN, _ | _, NaN => NaN
  | Fin x, Fin y =>
      if Req_dec_T y 0
      then (if Req_dec_T x 0 then NaN else Inf (Rneg x))
      else Fin (x / y)
  | Fin _, Inf _ => Fin 0
  | Inf s, Fin y => Inf (xorb s (Rneg y))
  | Inf _, Inf _ => NaN
  end.

Definition np_mul (a b : npfloat) : npfloat :=
  match a, b with
  | NaN, _ | _, NaN => NaN
  | Fin x, Fin y => Fin (x * y)
  | Fin x, Inf s | Inf s, Fin x =>
      if Req_dec_T x 0 then NaN else Inf (xorb s (Rneg x))
  | Inf s, Inf t => Inf (xorb s t)
  end.

Definition np_sub (a b : npfloat) : npfloat :=
  match a, b with
  | NaN, _ | _, NaN => NaN
  | Fin x, Fin y => Fin (x - y)
  | Fin _, Inf s => Inf (negb s)
  | Inf s, Fin _ => Inf s
  | Inf s, Inf t => if Bool.eqb s t then NaN else Inf s
  end.

(** [np.sqrt] of a non-negative finite number. *)
Definition np_sqrt (x : R) : npfloat := Fin (sqrt x).

(** [np.arange(n)] as floats: [0, 1, ..., n-1]. *)
Definition arange (n : nat) : list R := map INR (seq 0 n).

Definition Rsum (l : list R) : R := fold_right Rplus 0 l.

(** [np.mean] of a one-dimensional array. *)
Definition mean (l : list R) : R := Rsum l / INR (List.length l).

(** The inner product of two arrays of the same length. *)
Definition dot (a b : list R) : R :=
  Rsum (map (fun p => fst p * snd p) (combine a b)).

End NumPy.

(* ====================================================================== *)
(** ** [datetime]: calendar dates, [strptime], [strftime], [timedelta] *)
(* ====================================================================== *)

Module Datetime.

Import Py.
Local Open Scope string_scope.
Local Open Scope Z_scope.

Record datetime : Type := mk_datetime {
  year : Z; month : Z; day : Z;
  hour : Z; minute : Z; second : Z; microsecond : Z
}.

Definition is_leap (y : Z) : bool :=
  (y mod 4 =? 0) && (negb (y mod 100 =? 0) || (y mod 400 =? 0)).

Definition days_in_month (y m : Z) : Z :=
  if m =? 2 then (if is_leap y then 29 else 28)
  else if (m =? 4) || (m =? 6) || (m =? 9) || (m =? 11) then 30
  else 31.

(** The dates a [datetime] can hold: years 1 to 9999 of the proleptic
    Gregorian calendar. *)
Definition valid_date (y m d : Z) : bool :=
  (1 <=? y) && (y <=? 9999) && (1 <=? m) && (m <=? 12)
  && (1 <=? d) && (d <=? days_in_month y m).

Definition valid (dt : datetime) : bool :=
  valid_date (year dt) (month dt) (day dt).

(** Days before January 1st of year [y]. *)
Definition days_before_year (y : Z) : Z :=
  let p := y - 1 in p * 365 + p / 4 - p / 100 + p / 400.

(** Days of year [y] before the first day of month [m]. *)
Definition days_before_month (y m : Z) : Z :=
  (match m with
   | 1 => 0 | 2 => 31 | 3 => 59 | 4 => 90 | 5 => 120 | 6 => 151
   | 7 => 181 | 8 => 212 | 9 => 243 | 10 => 273 | 11 => 304 | _ => 334
   end) + (if (2 <? m) && is_leap y then 1 else 0).

(** [dt.toordinal()]: 0001-01-01 is day 1. *)
Definition to_ordinal (dt : datetime) : Z :=
  days_before_year (year dt) + days_before_month (year dt) (month dt) + day dt.

Definition with_date (dt : datetime) (y m d : Z) : datetime :=
  mk_datetime y m d (hour dt) (minute dt) (second dt) (microsecond dt).

Definition OverflowError : exn :=
  mk_exn "OverflowError" "date value out of range".

(** [dt - timedelta(days=1)]: the same time of day on the previous calendar
    day; there is no day before 0001-01-01. *)
Definition prev_day (dt : datetime) : result datetime :=
  if 1 <? day dt then
    Ok (with_date dt (year dt) (month dt) (day dt - 1))
  else if 1 <? month dt then
    Ok (with_date dt (year dt) (month dt - 1)
          (days_in_month (year dt) (month dt - 1)))
  else if 1 <? year dt then
    Ok (with_date dt (year dt - 1) 12 31)
  else Raise OverflowError.

(** [dt - timedelta(days=k)], one calendar day at a time ([to_ordinal]
    measures the result). *)
Fixpoint sub_days (dt : datetime) (k : nat) : result datetime :=
  match k with
  | O => Ok dt
  | S k' => bind (prev_day dt) (fun p => sub_days p k')
  end.

(** *** Characters and digits *)

Definition code (c : ascii) : Z := Z.of_nat (nat_of_ascii c).

(** The character class [[lo-hi]]. *)
Definition in_cls (lo hi c : ascii) : bool :=
  (code lo <=? code c) && (code c <=? code hi).

(** [\d] on ASCII text.  Python's [\d] also matches the decimal digits of
    other scripts; what is said below about [strptime_Ymd] rejecting a
    string is said of ASCII strings, where the two agree. *)
Definition is_digit (c : ascii) : bool := in_cls "0" "9" c.

Definition digit (c : ascii) : Z := code c - 48.

Definition digit_char (d : Z) : ascii := ascii_of_nat (Z.to_nat (48 + d)).

(** *** [datetime.strptime(s, '%Y-%m-%d')]

    The format compiles to the regular expression
    [(\d\d\d\d)-(1[0-2]|0[1-9]|[1-9])-(3[0-1]|[1-2]\d|0[1-9]|[1-9]| [1-9])],
    matched at the start of [s]; alternatives are tried left to right, and
    an alternative is given up when what follows it does not match (the
    continuation [k]). *)

Definition match_Y {A : Type} (s : string) (k : Z -> string -> option A)
  : option A :=
  match s with
  | String a (String b (String c (String d r))) =>
      if is_digit a && is_digit b && is_digit c && is_digit d
      then k (1000 * digit a + 100 * digit b + 10 * digit c + digit d) r
      else None
  | _ => None
  end.

Definition match_lit {A : Type} (ch : ascii) (s : string)
  (k : string -> option A) : option A :=
  match s with
  | String c r => if Ascii.eqb c ch then k r else None
  | EmptyString => None
  end.

Definition orelse {A : Type} (x y : option A) : option A :=
  match x with
  | Some v => Some v
  | None => y
  end.

Definition match_2 {A : Type} (lo1 hi1 lo2 hi2 : ascii) (s : string)
  (k : Z -> string -> option A) : option A :=
  match s with
  | String a (String b r) =>
      if in_cls lo1 hi1 a && in_cls lo2 hi2 b
      then k (10 * digit a + digit b) r
      else None
  | _ => None
  end.

Definition match_1 {A : Type} (s : string) (k : Z -> string -> option A)
  : option A :=
  match s with
  | String a r => if in_cls "1" "9" a then k (digit a) r else None
  | EmptyString => None
  end.

Definition match_m {A : Type} (s : string) (k : Z -> string -> option A)
  : option A :=
  orelse (match_2 "1" "1" "0" "2" s k)
    (orelse (match_2 "0" "0" "1" "9" s k) (match_1 s k)).

Definition match_d {A : Type} (s : string) (k : Z -> string -> option A)
  : option A :=
  orelse (match_2 "3" "3" "0" "1" s k)
    (orelse (match_2 "1" "2" "0" "9" s k)
       (orelse (match_2 "0" "0" "1" "9" s k)
          (orelse (match_1 s k)
             (match_lit " " s (fun r => match_1 r k))))).

(** The match: year, month, day and the unconverted rest of the string. *)
Definition match_Ymd (s : string) : option (Z * Z * Z * string) :=
  match_Y s (fun y r1 =>
  match_lit "-" r1 (fun r2 =>
  match_m r2 (fun m r3 =>
  match_lit "-" r3 (fun r4 =>
  match_d r4 (fun d rest => Some (y, m, d, rest)))))).

Definition ValueError (msg : string) : exn := mk_exn "ValueError" msg.

Definition strptime_Ymd (s : string) : result datetime :=
  match match_Ymd s with
  | None =>
      Raise (ValueError ("time data " ++ repr s
                         ++ " does not match format '%Y-%m-%d'"))
  | Some (y, m, d, rest) =>
      match rest with
      | String _ _ => Raise (ValueError ("unconverted data remains: " ++ rest))
      | EmptyString =>
          if valid_date y m d then Ok (mk_datetime y m d 0 0 0 0)
          else if y =? 0 then Raise (ValueError "year 0 is out of range")
          else Raise (ValueError "day is out of range for month")
      end
  end.

(** *** [dt.strftime('%Y-%m-%d')]: zero-padded year, month and day.

    From year 1000 on every platform writes [%Y] with these four digits.
    For earlier years the C library decides (glibc writes 999, not 0999,
    see [strftime_Ymd_unpadded]): what is said below about the text of a
    date read from the request is said for years from 1000 on, where the
    two renderings are one. *)

Definition pad2 (n : Z) : string :=
  String (digit_char (n / 10 mod 10)) (String (digit_char (n mod 10)) EmptyString).

Definition pad4 (n : Z) : string :=
  String (digit_char (n / 1000 mod 10))
    (String (digit_char (n / 100 mod 10)) (pad2 n)).

Definition strftime_Ymd (dt : datetime) : string :=
  pad4 (year dt) ++ "-" ++ pad2 (month dt) ++ "-" ++ pad2 (day dt).

(** The same on a platform whose [%Y] does not pad: the year in as many
    digits as it has. *)
Definition year_unpadded (y : Z) : string :=
  if y <? 10 then String (digit_char (y mod 10)) EmptyString
  else if y <? 100 then pad2 y
  else if y <? 1000 then String (digit_char (y / 100 mod 10)) (pad2 y)
  else pad4 y.

Definition strftime_Ymd_unpadded (dt : datetime) : string :=
  year_unpadded (year dt) ++ "-" ++ pad2 (month dt) ++ "-" ++ pad2 (day dt).

(** An ISO 8601 calendar date in the extended format [YYYY-MM-DD]: ten
    characters, digits around two hyphens, naming a day of the years 0001
    to 9999 that exists. *)
Definition is_iso_date (s : string) : bool :=
  match s with
  | String y1 (String y2 (String y3 (String y4 (String h1
      (String m1 (String m2 (String h2 (String d1 (String d2
         EmptyString))))))))) =>
      is_digit y1 && is_digit y2 && is_digit y3 && is_digit y4
      && Ascii.eqb h1 "-" && is_digit m1 && is_digit m2
      && Ascii.eqb h2 "-" && is_digit d1 && is_digit d2
      && valid_date
           (1000 * digit y1 + 100 * digit y2 + 10 * digit y3 + digit y4)
           (10 * digit m1 + digit m2) (10 * digit d1 + digit d2)
  | _ => false
  end.

(** The year that the first four characters of an ISO date spell. *)
Definition iso_year (s : string) : Z :=
  match s with
  | String y1 (String y2 (String y3 (String y4 _))) =>
      1000 * digit y1 + 100 * digit y2 + 10 * digit y3 + digit y4
  | _ => 0
  end.

End Datetime.

(* ====================================================================== *)
(** ** scikit-learn: [StandardScaler] and [LinearRegression], one feature *)
(* ====================================================================== *)

Module Sklearn.

Import NumPy.
Local Open Scope R_scope.

Record StandardScaler : Type := mk_scaler { mean_ : R; scale_ : R }.

(** [scaler.fit(X)]: the mean and the population standard deviation of the
    column; a zero deviation is replaced by 1 so that [transform] never
    divides by zero. *)
Definition StandardScaler_fit (X : list R) : StandardScaler :=
  let mu := mean X in
  let var := mean (map (fun x => (x - mu) * (x - mu)) X) in
  let s := sqrt var in
  mk_scaler mu (if Req_dec_T s 0 then 1 else s).

Definition transform (sc : StandardScaler) (X : list R) : list R :=
  map (fun x => (x - mean_ sc) / scale_ sc) X.

Definition fit_transform (X : list R) : list R :=
  transform (StandardScaler_fit X) X.

Record LinearRegression : Type := mk_model { coef_ : R; intercept_ : R }.

(** [model.fit(X, y)] with [fit_intercept=True]: both columns are centred,
    the slope is the least-squares solution of the centred system (the
    minimum-norm one, 0, when the centred feature is identically zero), and
    the intercept is [mean(y) - mean(X) * coef]. *)
Definition LinearRegression_fit (X y : list R) : LinearRegression :=
  let X_offset := mean X in
  let y_offset := mean y in
  let Xc := map (fun x => x - X_offset) X in
  let yc := map (fun v => v - y_offset) y in
  let sxx := dot Xc Xc in
  let coef := if Req_dec_T sxx 0 then 0 else dot Xc yc / sxx in
  mk_model coef (y_offset - X_offset * coef).

Definition predict (m : LinearRegression) (X : list R) : list R :=
  map (fun x => x * coef_ m + intercept_ m) X.

End Sklearn.

(* ====================================================================== *)
(** ** The application *)
(* ====================================================================== *)

Module App.

Import Py NumPy Datetime Sklearn.
Local Open Scope string_scope.

(** The Python values that reach [jsonify]. *)
#[local] Set Warnings "-register-all".
Inductive pyval : Type :=
| PNone
| PBool (b : bool)
| PInt (z : Z)
| PFloat (x : npfloat)
| PStr (s : string)
| PList (l : list pyval)
| PDict (d : list (string * pyval)).

(** An HTTP response: status code and JSON body. *)
Record response : Type := mk_response { status : Z; body : pyval }.

(** [return jsonify(data)] answers 200; [return jsonify(data), code] answers
    [code]. *)
Definition jsonify (data : pyval) : response := mk_response 200 data.
Definition jsonify_status (data : pyval) (code : Z) : response :=
  mk_response code data.

(** [request.args]: the query parameters in the order they were sent. *)
Definition args : Type := list (string * string).

(** [request.args.get(k)] and [request.args.get(k, default)]. *)
Definition args_get (k : string) (a : args) : option string := dict_lookup k a.
Definition args_get_default (k default : string) (a : args) : string :=
  dict_get k default a.

(** The provider's frame, reduced to what the code reads: one row per
    trading day, the index entry and the [Close] column.  [len(df)] is the
    number of rows, and [df.empty] holds when there is none.

    A close is a finite price.  A frame with a [nan] or infinite close is
    not a value of this type: on such a frame [model.fit] raises and the
    handler of [generate_regression_data] answers the defaults, a path
    that the statements below, made for frames of finite closes, leave
    aside. *)
Definition DataFrame : Type := list (datetime * R).

(** What [calculate_portfolio_metrics] returns, in the order the caller
    unpacks it. *)
Record portfolio_metrics : Type := mk_metrics {
  final_weights : list npfloat;
  final_ret : pyval;
  final_vol : pyval;
  final_sharpe : pyval;
  opts : pyval;
  optv : pyval;
  rets : pyval
}.

Notation "x <- c ;; k" := (bind c (fun x => k))
  (at level 61, c at next level, right associativity).

Section Application.

(** The reading of [datetime.now()] while the request is served. *)
Variable now : datetime.
(** [yf.Ticker(ticker).history(start=..., end=...)]. *)
Variable history : string -> string -> string -> result DataFrame.
(** [yf.Ticker(ticker).info]. *)
Variable info : string -> result (list (string * pyval)).
(** [f"{x:.Nf}"] for a finite [x]. *)
Variable format_fixed : nat -> R -> string.
(** [hedge_analysis.analyze_hedge_relationship]. *)
Variable analyze_hedge_relationship :
  string -> string -> option string -> option string -> result pyval.
(** [montecarlo.calculate_portfolio_metrics] and
    [montecarlo.prepare_portfolio_data]. *)
Variable calculate_portfolio_metrics :
  list string -> option string -> option string -> result portfolio_metrics.
Variable prepare_portfolio_data : pyval -> pyval -> pyval -> result pyval.

Definition format_float (digits : nat) (x : npfloat) : string :=
  match x with
  | Fin r => format_fixed digits r
  | Inf false => "inf"
  | Inf true => "-inf"
  | NaN => "nan"
  end.

(** Lines 28-33 and, word for word, lines 105-110: the dates of the request
    when both are non-empty, else the 90 days that end yesterday. *)
Definition resolve_dates (start_date end_date : option string)
  : result (datetime * datetime) :=
  match start_date, end_date with
  | Some (String _ _ as s), Some (String _ _ as e) =>
      start_dt <- strptime_Ymd s ;;
      end_dt <- strptime_Ymd e ;;
      Ok (start_dt, end_dt)
  | _, _ =>
      end_dt <- sub_days now 1 ;;
      start_dt <- sub_days end_dt 90 ;;
      Ok (start_dt, end_dt)
  end.

(** Lines 38-40 and 115-117: the provider is asked for the resolved window,
    each end rendered as [%Y-%m-%d]. *)
Definition fetch (ticker : string) (start_date end_date : option string)
  : result DataFrame :=
  w <- resolve_dates start_date end_date ;;
  history ticker (strftime_Ymd (fst w)) (strftime_Ymd (snd w)).

(** Lines 47-56: the day index is standardized and the closing prices are
    regressed on it. *)
Definition fit_scaled (y : list R) : list R * LinearRegression :=
  let X := arange (List.length y) in
  let X_scaled := fit_transform X in
  (X_scaled, LinearRegression_fit X_scaled y).

(** Lines 71-77: slope and intercept per day, from the coefficients of the
    standardized fit. *)
Definition unscale (model : LinearRegression) (n_days : nat)
  : npfloat * npfloat :=
  let mean_days := ((INR n_days - 1) / 2)%R in
  let std_days := np_sqrt ((INR n_days - 1) * (INR n_days + 1) / 12)%R in
  let actual_slope := np_div (Fin (coef_ model)) std_days in
  let actual_intercept :=
    np_sub (Fin (intercept_ model))
      (np_div (np_mul (Fin (coef_ model)) (Fin mean_days)) std_days) in
  (actual_slope, actual_intercept).

Definition float_dict (dates : list string) (values : list R) : pyval :=
  PDict (dict_of_pairs (combine dates (map (fun v => PFloat (Fin v)) values))).

Definition default_regression (ticker : string) : pyval :=
  PDict [("prices", PDict []); ("regression", PDict []);
         ("companyName", PStr ticker); ("slope", PInt 0);
         ("intercept", PInt 0); ("formula", PStr "price = 0 * days + 0")].

(** The [try] block of [generate_regression_data], lines 27-89. *)
Definition generate_regression_data_try (ticker : string)
  (start_date end_date : option string) : result pyval :=
  df <- fetch ticker start_date end_date ;;
  match df with
  | [] => Ok (PDict [])
  | _ :: _ =>
      let y := map snd df in
      let '(X_scaled, model) := fit_scaled y in
      let y_pred := predict model X_scaled in
      let dates := map (fun row => strftime_Ymd (fst row)) df in
      let original_data := float_dict dates y in
      let regression_data := float_dict dates y_pred in
      i <- info ticker ;;
      let company_name := dict_get "longName" (PStr ticker) i in
      let n_days := List.length df in
      let '(actual_slope, actual_intercept) := unscale model n_days in
      let formula :=
        "price = " ++ format_float 4 actual_slope ++ " * days + "
        ++ format_float 2 actual_intercept in
      Ok (PDict [("prices", original_data);
                 ("regression", regression_data);
                 ("companyName", company_name);
                 ("slope", PFloat actual_slope);
                 ("intercept", PFloat actual_intercept);
                 ("formula", PStr formula)])
  end.

Definition generate_regression_data (ticker : string)
  (start_date end_date : option string) : pyval :=
  try_except (generate_regression_data_try ticker start_date end_date)
    (fun _ => default_regression ticker).

Definition default_data (ticker : string) : pyval :=
  PDict [("prices", PDict []); ("companyName", PStr ticker)].

(** The [try] block of [generate_data], lines 104-138. *)
Definition generate_data_try (ticker : string)
  (start_date end_date : option string) : result pyval :=
  df <- fetch ticker start_date end_date ;;
  match df with
  | [] => Ok (PDict [])
  | _ :: _ =>
      i <- info ticker ;;
      let company_name := dict_get "longName" (PStr ticker) i in
      let data :=
        float_dict (map (fun row => strftime_Ymd (fst row)) df) (map snd df) in
      Ok (PDict [("prices", data); ("companyName", company_name)])
  end.

Definition generate_data (ticker : string)
  (start_date end_date : option string) : pyval :=
  try_except (generate_data_try ticker start_date end_date)
    (fun _ => default_data ticker).

(** Line 152. *)
Definition include_regression (a : args) : bool :=
  String.eqb (lower (args_get_default "regression" "false" a)) "true".

(** [GET /get-data]. *)
Definition get_data (a : args) : response :=
  let ticker := args_get_default "ticker" "AAPL" a in
  let start_date := args_get "start_date" a in
  let end_date := args_get "end_date" a in
  if include_regression a
  then jsonify (generate_regression_data ticker start_date end_date)
  else jsonify (generate_data ticker start_date end_date).

(** [GET /analyze-hedge].  The analyzer is called outside any [try]: what it
    raises leaves the view. *)
Definition analyze_hedge (a : args) : result response :=
  let ticker1 := args_get "ticker1" a in
  let ticker2 := args_get "ticker2" a in
  let start_date := args_get "start_date" a in
  let end_date := args_get "end_date" a in
  match ticker1, ticker2 with
  | Some (String _ _ as t1), Some (String _ _ as t2) =>
      r <- analyze_hedge_relationship t1 t2 start_date end_date ;;
      Ok (jsonify r)
  | _, _ =>
      Ok (jsonify_status (PDict [("error", PStr "Both tickers are required")])
            400)
  end.

(** Line 182: [not tickers or tickers[0] == '']. *)
Definition no_ticker (tickers : list string) : bool :=
  match tickers with
  | [] => true
  | t :: _ => String.eqb t EmptyString
  end.

(** Lines 185-200: the [try] block of [/portfolio-metrics] and its handler. *)
Definition portfolio_response (tickers : list string)
  (start_date end_date : option string) : response :=
  try_except
    (m <- calculate_portfolio_metrics tickers start_date end_date ;;
     portfolio_data <- prepare_portfolio_data (opts m) (optv m) (rets m) ;;
     Ok (jsonify
           (PDict [("final_weights", PList (map PFloat (final_weights m)));
                   ("final_return", final_ret m);
                   ("final_volatility", final_vol m);
                   ("final_sharpe_ratio", final_sharpe m);
                   ("data", portfolio_data)])))
    (fun e => jsonify_status (PDict [("error", PStr (exn_msg e))]) 500).

(** [GET /portfolio-metrics]. *)
Definition get_portfolio_metrics (a : args) : response :=
  let tickers := split "," (args_get_default "tickers" EmptyString a) in
  let start_date := args_get "start_date" a in
  let end_date := args_get "end_date" a in
  if no_ticker tickers then
    jsonify_status (PDict [("error", PStr "At least one ticker is required")])
      400
  else portfolio_response tickers start_date end_date.

End Application.

End App.

(* ====================================================================== *)
(** ** Ordinary least squares, as the specification words it *)
(* ====================================================================== *)

Module Ols.

Import NumPy.
Local Open Scope R_scope.

(** The sum of squared residuals of the line [price = b * day + a] over the
    observations [(X_i, y_i)]. *)
Definition sse (X y : list R) (b a : R) : R :=
  Rsum (map (fun p => (snd p - (b * fst p + a)) * (snd p - (b * fst p + a)))
          (combine X y)).

(** [(b, a)] is an ordinary-least-squares fit of [y] against [X]: no line
    has a smaller sum of squared residuals. *)
Definition least_squares (X y : list R) (b a : R) : Prop :=
  forall b' a', sse X y b a <= sse X y b' a'.

(** The centred sums [sum (x - mean x)^2] and [sum (x - mean x)(y - mean y)],
    written with the plain sums. *)
Definition cxx (X : list R) : R :=
  dot X X - Rsum X * Rsum X / INR (List.length X).

Definition cxy (X y : list R) : R :=
  dot X y - Rsum X * Rsum y / INR (List.length X).

End Ols.

(* ====================================================================== *)
(** ** Sample collaborators: a clock, provider answers, portfolio routines *)
(* ====================================================================== *)

Module Samples.

Import Py NumPy Datetime App.
Local Open Scope string_scope.

Definition clock : datetime := mk_datetime 2026 11 3 9 30 0 0.

Definition friday : datetime := mk_datetime 2026 10 30 0 0 0 0.
Definition monday : datetime := mk_datetime 2026 11 2 0 0 0 0.

(** The provider knows no trading day in the window. *)
Definition no_rows (_ _ _ : string) : result DataFrame := Ok [].

(** The provider cannot be reached. *)
Definition outage (_ _ _ : string) : result DataFrame :=
  Raise (mk_exn "ConnectionError" "provider unreachable").

Definition one_row (_ _ _ : string) : result DataFrame :=
  Ok [(friday, 100%R)].

Definition two_rows (_ _ _ : string) : result DataFrame :=
  Ok [(friday, 100%R); (monday, 104%R)].

Definition no_info (_ : string) : result (list (string * pyval)) := Ok [].

(** A stand-in for the renderer of finite numbers, which is a parameter of
    the application: it prints the same text for every number, and no
    statement below reads a number off the text it prints. *)
Definition fixed (_ : nat) (_ : R) : string := "0".

Definition analyzer (_ _ : string) (_ _ : option string) : result pyval :=
  Ok (PDict [("hedge_ratio", PInt 1)]).

Definition metrics : portfolio_metrics :=
  mk_metrics [Fin 1%R] (PInt 0) (PInt 0) (PInt 0) PNone PNone PNone.

Definition calculate_ok (_ : list string) (_ _ : option string)
  : result portfolio_metrics := Ok metrics.

Definition calculate_fails (_ : list string) (_ _ : option string)
  : result portfolio_metrics :=
  Raise (mk_exn "ValueError" "no price history").

Definition prepare_ok (_ _ _ : pyval) : result pyval := Ok (PList []).

Definition prepare_fails (_ _ _ : pyval) : result pyval :=
  Raise (mk_exn "KeyError" "frontier").

End Samples.

(* ====================================================================== *)
(** ** Vocabulary for the properties of the payloads *)
(* ====================================================================== *)

Module Derived.

Import Py NumPy Datetime App.
Local Open Scope string_scope.

(** The spellings of [true] in any mix of upper and lower case: the values
    of [regression] that ask for the regression. *)
Definition spells_true (v : string) : bool :=
  match v with
  | String a (String b (String c (String d EmptyString))) =>
      (Ascii.eqb a "t" || Ascii.eqb a "T")
      && (Ascii.eqb b "r" || Ascii.eqb b "R")
      && (Ascii.eqb c "u" || Ascii.eqb c "U")
      && (Ascii.eqb d "e" || Ascii.eqb d "E")
  | _ => false
  end.

(** A string of ASCII characters only. *)
Fixpoint is_ascii (s : string) : bool :=
  match s with
  | EmptyString => true
  | String c r => (nat_of_ascii c <? 128)%nat && is_ascii r
  end.

(** The value that the last pair with key [k] carries. *)
Definition last_value {V : Type} (k : string) (pairs : list (string * V))
  : option V :=
  dict_lookup k (rev pairs).

(** One step of a dict comprehension: [d[k] = v]. *)
Definition dict_step {V : Type} (d : list (string * V)) (kv : string * V)
  : list (string * V) :=
  dict_set (fst kv) (snd kv) d.

(** [payload[k]] for a payload that is a dict. *)
Definition payload_field (k : string) (payload : pyval) : option pyval :=
  match payload with
  | PDict d => dict_lookup k d
  | _ => None
  end.

(** [list(payload.keys())]. *)
Definition payload_keys (payload : pyval) : list string :=
  match payload with
  | PDict d => map fst d
  | _ => []
  end.

(** The rows of a frame as the helpers write them into [prices]: the index
    entry rendered as [%Y-%m-%d] and the closing price as a float. *)
Definition price_pairs (df : DataFrame) : list (string * pyval) :=
  map (fun row => (strftime_Ymd (fst row), PFloat (Fin (snd row)))) df.

(** Two clock readings on the same calendar day. *)
Definition same_day (a b : datetime) : Prop :=
  year a = year b /\ month a = month b /\ day a = day b.

End Derived.

Module MoreSamples.

Import Py NumPy Datetime App.
Local Open Scope string_scope.

Definition tuesday : datetime := mk_datetime 2026 11 3 0 0 0 0.

(** Three closes that rise by 2 a day from 50. *)
Definition rising_rows (_ _ _ : string) : result DataFrame :=
  Ok [(Samples.friday, 50%R); (Samples.monday, 52%R); (tuesday, 54%R)].

(** The provider repeats a day, with a corrected close. *)
Definition repeated_rows (_ _ _ : string) : result DataFrame :=
  Ok [(Samples.friday, 50%R); (Samples.monday, 52%R); (Samples.friday, 51%R)].

Definition named_info (_ : string) : result (list (string * pyval)) :=
  Ok [("longName", PStr "Microsoft Corporation")].

Definition analyzer_fails (_ _ : string) (_ _ : option string)
  : result pyval :=
  Raise (mk_exn "ValueError" "series too short").

Definition evening : datetime := mk_datetime 2026 11 3 23 59 59 0.

(** A portfolio routine that reports, as its last component, the tickers it
    was called with, and a shaping routine that hands that component on. *)
Definition calculate_echo (tickers : list string) (_ _ : option string)
  : result portfolio_metrics :=
  Ok (mk_metrics [] (PInt 0) (PInt 0) (PInt 0) PNone PNone
        (PList (map PStr tickers))).

Definition prepare_third (_ _ rets : pyval) : result pyval := Ok rets.

End MoreSamples.

(* ====================================================================== *)
(** ** The calendar: ordinals, [timedelta] steps and ISO dates *)
(* ====================================================================== *)

Module DatetimeFacts.

Import Py Datetime.
Local Open Scope string_scope.
Local Open Scope Z_scope.

Ltac bool_hyps :=
  repeat match goal with
  | H : _ && _ = true |- _ => apply andb_prop in H; destruct H
  | H : (_ <=? _) = true |- _ => apply Z.leb_le in H
  | H : (_ <? _) = true |- _ => apply Z.ltb_lt in H
  | H : (_ <? _) = false |- _ => apply Z.ltb_ge in H
  | H : (_ =? _) = true |- _ => apply Z.eqb_eq in H
  | H : Ascii.eqb _ _ = true |- _ => apply Ascii.eqb_eq in H
  end.

Lemma valid_date_bounds (y m d : Z) :
  valid_date y m d = true ->
  1 <= y <= 9999 /\ 1 <= m <= 12 /\ 1 <= d <= days_in_month y m.
Proof. unfold valid_date. intros H. bool_hyps. lia. Qed.

Lemma valid_date_intro (y m d : Z) :
  1 <= y <= 9999 -> 1 <= m <= 12 -> 1 <= d <= days_in_month y m ->
  valid_date y m d = true.
Proof.
  intros. unfold valid_date.
  repeat (apply andb_true_intro; split); apply Z.leb_le; lia.
Qed.

Lemma days_in_month_bounds (y m : Z) : 28 <= days_in_month y m <= 31.
Proof.
  unfold days_in_month.
  destruct (m =? 2); [destruct (is_leap y); lia|].
  destruct ((m =? 4) || (m =? 6) || (m =? 9) || (m =? 11)); lia.
Qed.

(** A year is one day longer when it is a leap year. *)
Lemma days_before_year_succ (y : Z) :
  days_before_year (y + 1) =
  days_before_year y + 365 + (if is_leap y then 1 else 0).
Proof.
  unfold days_before_year, is_leap.
  replace (y + 1 - 1) with y by lia.
  destruct (y mod 4 =? 0) eqn:H4; destruct (y mod 100 =? 0) eqn:H100;
    destruct (y mod 400 =? 0) eqn:H400; simpl;
    rewrite ?Z.eqb_eq, ?Z.eqb_neq in *;
    Z.div_mod_to_equations; lia.
Qed.

(** A month starts where the previous one ends. *)
Lemma days_before_month_succ (y m : Z) :
  1 <= m <= 11 ->
  days_before_month y (m + 1) = days_before_month y m + days_in_month y m.
Proof.
  intros Hm.
  assert (m = 1 \/ m = 2 \/ m = 3 \/ m = 4 \/ m = 5 \/ m = 6 \/ m = 7
          \/ m = 8 \/ m = 9 \/ m = 10 \/ m = 11) as Hc by lia.
  unfold days_before_month, days_in_month.
  repeat (destruct Hc as [-> | Hc]); try subst m; simpl;
    destruct (is_leap y); reflexivity.
Qed.

Lemma to_ordinal_pos (dt : datetime) : valid dt = true -> 1 <= to_ordinal dt.
Proof.
  unfold valid, to_ordinal. intros H.
  apply valid_date_bounds in H. destruct H as (Hy & Hm & Hd).
  assert (0 <= days_before_year (year dt)).
  { unfold days_before_year. Z.div_mod_to_equations. lia. }
  assert (0 <= days_before_month (year dt) (month dt)).
  { unfold days_before_month.
    destruct (month dt) as [|p|p]; try lia.
    destruct ((2 <? Z.pos p) && is_leap (year dt));
      repeat (destruct p as [p|p|]; try lia). }
  lia.
Qed.

(** One step back is the previous ordinal, at the same time of day. *)
Lemma prev_day_ordinal (dt p : datetime) :
  valid dt = true -> prev_day dt = Ok p ->
  valid p = true /\ to_ordinal p = to_ordinal dt - 1
  /\ hour p = hour dt /\ minute p = minute dt /\ second p = second dt
  /\ microsecond p = microsecond dt.
Proof.
  unfold valid, prev_day, to_ordinal. intros Hv Hp.
  apply valid_date_bounds in Hv. destruct Hv as (Hy & Hm & Hd).
  destruct (1 <? day dt) eqn:E1.
  - inversion Hp; subst p; clear Hp. simpl. bool_hyps.
    repeat split; try reflexivity; [apply valid_date_intro|]; lia.
  - destruct (1 <? month dt) eqn:E2.
    + inversion Hp; subst p; clear Hp. simpl. bool_hyps.
      pose proof (days_in_month_bounds (year dt) (month dt - 1)).
      pose proof (days_before_month_succ (year dt) (month dt - 1)) as Hs.
      replace (month dt - 1 + 1) with (month dt) in Hs by lia.
      repeat split; try reflexivity; [apply valid_date_intro|]; lia.
    + destruct (1 <? year dt) eqn:E3; [|discriminate].
      inversion Hp; subst p; clear Hp. simpl. bool_hyps.
      pose proof (days_before_year_succ (year dt - 1)) as Hs.
      replace (year dt - 1 + 1) with (year dt) in Hs by lia.
      assert (month dt = 1) as -> by lia.
      assert (day dt = 1) as -> by lia.
      unfold days_before_month; simpl.
      repeat split; try reflexivity.
      * apply valid_date_intro; try lia. unfold days_in_month; simpl. lia.
      * destruct (is_leap (year dt - 1)); lia.
Qed.

Lemma prev_day_total (dt : datetime) :
  valid dt = true -> 1 < to_ordinal dt -> exists p, prev_day dt = Ok p.
Proof.
  unfold valid, prev_day, to_ordinal. intros Hv Ho.
  apply valid_date_bounds in Hv. destruct Hv as (Hy & Hm & Hd).
  destruct (1 <? day dt) eqn:E1; [eauto|].
  destruct (1 <? month dt) eqn:E2; [eauto|].
  destruct (1 <? year dt) eqn:E3; [eauto|].
  bool_hyps. exfalso.
  assert (year dt = 1) as Hy1 by lia.
  assert (month dt = 1) as Hm1 by lia.
  rewrite Hy1, Hm1 in Ho. unfold days_before_year, days_before_month in Ho.
  simpl in Ho. lia.
Qed.

(** [k] steps back are [k] ordinals back, as long as day 1 is not passed. *)
Lemma sub_days_ordinal (k : nat) : forall dt : datetime,
  valid dt = true -> Z.of_nat k < to_ordinal dt ->
  exists p, sub_days dt k = Ok p /\ valid p = true
            /\ to_ordinal p = to_ordinal dt - Z.of_nat k
            /\ hour p = hour dt /\ minute p = minute dt
            /\ second p = second dt /\ microsecond p = microsecond dt.
Proof.
  induction k as [|k IH]; intros dt Hv Hk.
  - exists dt. simpl. repeat split; auto; lia.
  - destruct (prev_day_total dt Hv) as [q Hq]; [lia|].
    destruct (prev_day_ordinal dt q Hv Hq) as (Hvq & Hoq & Hh & Hmi & Hs & Hus).
    destruct (IH q Hvq) as (p & Hp & Hvp & Hop & Hh' & Hmi' & Hs' & Hus');
      [lia|].
    exists p. simpl. rewrite Hq. simpl.
    repeat split; auto; try congruence; lia.
Qed.

Lemma in_cls_spec (lo hi c : ascii) :
  in_cls lo hi c = true <-> code lo <= code c <= code hi.
Proof.
  unfold in_cls. rewrite andb_true_iff, !Z.leb_le. tauto.
Qed.

Lemma digit_spec (c : ascii) :
  is_digit c = true -> 0 <= digit c <= 9 /\ digit_char (digit c) = c.
Proof.
  unfold is_digit. rewrite in_cls_spec. unfold digit, digit_char, code.
  change (Z.of_nat (nat_of_ascii "0")) with 48.
  change (Z.of_nat (nat_of_ascii "9")) with 57.
  intros H. split; [lia|].
  replace (48 + (Z.of_nat (nat_of_ascii c) - 48)) with (Z.of_nat (nat_of_ascii c)) by lia.
  rewrite Nat2Z.id. apply ascii_nat_embedding.
Qed.

Lemma pad2_digits (a b : ascii) :
  is_digit a = true -> is_digit b = true ->
  pad2 (10 * digit a + digit b) = String a (String b EmptyString).
Proof.
  intros Ha Hb.
  destruct (digit_spec a Ha) as [Ra Ca], (digit_spec b Hb) as [Rb Cb].
  unfold pad2.
  replace ((10 * digit a + digit b) / 10 mod 10) with (digit a)
    by (Z.div_mod_to_equations; lia).
  replace ((10 * digit a + digit b) mod 10) with (digit b)
    by (Z.div_mod_to_equations; lia).
  rewrite Ca, Cb. reflexivity.
Qed.

Lemma pad4_digits (a b c d : ascii) :
  is_digit a = true -> is_digit b = true ->
  is_digit c = true -> is_digit d = true ->
  pad4 (1000 * digit a + 100 * digit b + 10 * digit c + digit d) =
  String a (String b (String c (String d EmptyString))).
Proof.
  intros Ha Hb Hc Hd.
  destruct (digit_spec a Ha) as [Ra Ca], (digit_spec b Hb) as [Rb Cb].
  destruct (digit_spec c Hc) as [Rc Cc], (digit_spec d Hd) as [Rd Cd].
  unfold pad4, pad2.
  set (n := 1000 * digit a + 100 * digit b + 10 * digit c + digit d).
  replace (n / 1000 mod 10) with (digit a)
    by (unfold n; Z.div_mod_to_equations; lia).
  replace (n / 100 mod 10) with (digit b)
    by (unfold n; Z.div_mod_to_equations; lia).
  replace (n / 10 mod 10) with (digit c)
    by (unfold n; Z.div_mod_to_equations; lia).
  replace (n mod 10) with (digit d)
    by (unfold n; Z.div_mod_to_equations; lia).
  rewrite Ca, Cb, Cc, Cd. reflexivity.
Qed.

Lemma in_cls_digit (lo hi c : ascii) :
  in_cls lo hi c = (code lo - 48 <=? digit c) && (digit c <=? code hi - 48).
Proof.
  unfold in_cls, digit.
  destruct (code lo <=? code c) eqn:E1, (code c <=? code hi) eqn:E2;
  destruct (code lo - 48 <=? code c - 48) eqn:E3, (code c - 48 <=? code hi - 48) eqn:E4;
  simpl; try reflexivity;
  rewrite ?Z.leb_le, ?Z.leb_gt in *; lia.
Qed.

(** A two-digit month between 01 and 12 is read by the first or the second
    alternative of [%m]. *)
Lemma match_m_two {A : Type} (a b : ascii) (r : string)
  (k : Z -> string -> option A) (x : A) :
  is_digit a = true -> is_digit b = true ->
  1 <= 10 * digit a + digit b <= 12 ->
  k (10 * digit a + digit b) r = Some x ->
  match_m (String a (String b r)) k = Some x.
Proof.
  intros Ha Hb Hr Hk.
  destruct (digit_spec a Ha) as [Ra _], (digit_spec b Hb) as [Rb _].
  unfold match_m, match_2. rewrite !in_cls_digit.
  change (code "0" - 48) with 0. change (code "1" - 48) with 1.
  change (code "2" - 48) with 2. change (code "9" - 48) with 9.
  assert (digit a = 1 /\ digit b <= 2 \/ digit a = 0 /\ 1 <= digit b) as [[E1 E2]|[E1 E2]] by lia.
  - replace ((1 <=? digit a) && (digit a <=? 1) && ((0 <=? digit b) && (digit b <=? 2))) with true.
    + rewrite Hk. reflexivity.
    + symmetry. repeat (apply andb_true_intro; split); apply Z.leb_le; lia.
  - replace ((1 <=? digit a) && (digit a <=? 1)) with false
      by (symmetry; apply andb_false_intro1; apply Z.leb_gt; lia).
    replace ((0 <=? digit a) && (digit a <=? 0) && ((1 <=? digit b) && (digit b <=? 9))) with true.
    + unfold orelse; cbn [andb]; rewrite Hk; reflexivity.
    + symmetry. repeat (apply andb_true_intro; split); apply Z.leb_le; lia.
Qed.

Lemma match_d_two {A : Type} (a b : ascii) (r : string)
  (k : Z -> string -> option A) (x : A) :
  is_digit a = true -> is_digit b = true ->
  1 <= 10 * digit a + digit b <= 31 ->
  k (10 * digit a + digit b) r = Some x ->
  match_d (String a (String b r)) k = Some x.
Proof.
  intros Ha Hb Hr Hk.
  destruct (digit_spec a Ha) as [Ra _], (digit_spec b Hb) as [Rb _].
  unfold match_d, match_2. rewrite !in_cls_digit.
  change (code "0" - 48) with 0. change (code "1" - 48) with 1.
  change (code "2" - 48) with 2. change (code "3" - 48) with 3.
  change (code "9" - 48) with 9.
  assert (digit a = 3 /\ digit b <= 1 \/ 1 <= digit a <= 2
          \/ digit a = 0 /\ 1 <= digit b) as [[E1 E2]|[E1|[E1 E2]]] by lia.
  - replace ((3 <=? digit a) && (digit a <=? 3) && ((0 <=? digit b) && (digit b <=? 1))) with true.
    + rewrite Hk. reflexivity.
    + symmetry. repeat (apply andb_true_intro; split); apply Z.leb_le; lia.
  - replace ((3 <=? digit a) && (digit a <=? 3)) with false
      by (symmetry; apply andb_false_intro1; apply Z.leb_gt; lia).
    replace ((1 <=? digit a) && (digit a <=? 2) && ((0 <=? digit b) && (digit b <=? 9))) with true.
    + unfold orelse; cbn [andb]; rewrite Hk; reflexivity.
    + symmetry. repeat (apply andb_true_intro; split); apply Z.leb_le; lia.
  - replace ((3 <=? digit a) && (digit a <=? 3)) with false
      by (symmetry; apply andb_false_intro1; apply Z.leb_gt; lia).
    replace ((1 <=? digit a) && (digit a <=? 2)) with false
      by (symmetry; apply andb_false_intro1; apply Z.leb_gt; lia).
    replace ((0 <=? digit a) && (digit a <=? 0) && ((1 <=? digit b) && (digit b <=? 9))) with true.
    + unfold orelse; cbn [andb]; rewrite Hk; reflexivity.
    + symmetry. repeat (apply andb_true_intro; split); apply Z.leb_le; lia.
Qed.

(** [strptime] reads an ISO date as the day it names, and [strftime] writes
    that day back as the same ten characters. *)
Lemma iso_roundtrip (s : string) :
  is_iso_date s = true ->
  exists dt, strptime_Ymd s = Ok dt /\ strftime_Ymd dt = s /\ valid dt = true
             /\ hour dt = 0 /\ minute dt = 0 /\ second dt = 0
             /\ microsecond dt = 0.
Proof.
  unfold is_iso_date.
  destruct s as [|y1 [|y2 [|y3 [|y4 [|h1 [|m1 [|m2 [|h2 [|d1 [|d2 [|? ?]]]]]]]]]]];
    try discriminate.
  intros H. bool_hyps. subst h1 h2.
  set (y := 1000 * digit y1 + 100 * digit y2 + 10 * digit y3 + digit y4) in *.
  set (m := 10 * digit m1 + digit m2) in *.
  set (d := 10 * digit d1 + digit d2) in *.
  exists (mk_datetime y m d 0 0 0 0).
  match goal with Hv : valid_date y m d = true |- _ =>
    pose proof (valid_date_bounds y m d Hv) as (By & Bm & Bd) end.
  pose proof (days_in_month_bounds y m) as Hdim.
  assert (match_Ymd (String y1 (String y2 (String y3 (String y4 (String "-"
            (String m1 (String m2 (String "-" (String d1 (String d2
               EmptyString)))))))))) = Some (y, m, d, EmptyString)) as Hm.
  { unfold match_Ymd, match_Y.
    repeat match goal with Hd : is_digit _ = true |- _ => rewrite Hd end.
    cbn [andb]. unfold match_lit at 1. rewrite Ascii.eqb_refl.
    apply match_m_two; auto.
    unfold match_lit. rewrite Ascii.eqb_refl.
    apply match_d_two; auto. fold d; lia. }
  unfold strptime_Ymd. rewrite Hm.
  match goal with Hv : valid_date y m d = true |- _ => rewrite Hv end.
  repeat split; auto.
  unfold strftime_Ymd. cbn [year month day]. unfold y, m, d.
  rewrite pad4_digits, !pad2_digits by assumption. reflexivity.
Qed.

Lemma digit_char_spec (d : Z) :
  0 <= d <= 9 -> is_digit (digit_char d) = true /\ digit (digit_char d) = d.
Proof.
  intros Hd.
  assert (code (digit_char d) = 48 + d) as Hc.
  { unfold code, digit_char. rewrite nat_ascii_embedding by lia. lia. }
  split.
  - unfold is_digit. apply in_cls_spec. rewrite Hc.
    change (code "0") with 48. change (code "9") with 57. lia.
  - unfold digit. rewrite Hc. lia.
Qed.

Lemma decimal_digit (n k : Z) : 0 < k -> 0 <= n / k mod 10 <= 9.
Proof. intros _. pose proof (Z.mod_pos_bound (n / k) 10). lia. Qed.

Lemma decimal_digit0 (n : Z) : 0 <= n mod 10 <= 9.
Proof. pose proof (Z.mod_pos_bound n 10). lia. Qed.

(** From year 1000 on, padding the year changes nothing. *)
Lemma strftime_unpadded_eq (dt : datetime) :
  1000 <= year dt -> strftime_Ymd_unpadded dt = strftime_Ymd dt.
Proof.
  intros Hy. unfold strftime_Ymd_unpadded, strftime_Ymd, year_unpadded.
  destruct (year dt <? 10) eqn:E1; [apply Z.ltb_lt in E1; lia|].
  destruct (year dt <? 100) eqn:E2; [apply Z.ltb_lt in E2; lia|].
  destruct (year dt <? 1000) eqn:E3; [apply Z.ltb_lt in E3; lia|].
  reflexivity.
Qed.

(** The year of a day of the calendar is the year its text spells. *)
Lemma iso_year_strftime (dt : datetime) :
  valid dt = true -> iso_year (strftime_Ymd dt) = year dt.
Proof.
  unfold valid. intros Hv.
  destruct (valid_date_bounds _ _ _ Hv) as (Hy & _ & _).
  unfold strftime_Ymd, pad4, pad2. cbn [append iso_year].
  destruct (digit_char_spec _ (decimal_digit (year dt) 1000 ltac:(lia))) as [_ V1].
  destruct (digit_char_spec _ (decimal_digit (year dt) 100 ltac:(lia))) as [_ V2].
  destruct (digit_char_spec _ (decimal_digit (year dt) 10 ltac:(lia))) as [_ V3].
  destruct (digit_char_spec _ (decimal_digit0 (year dt))) as [_ V4].
  rewrite V1, V2, V3, V4. Z.div_mod_to_equations. lia.
Qed.

End DatetimeFacts.

(* ====================================================================== *)
(** ** The regression: least squares and the standardized day index *)
(* ====================================================================== *)

Module RegressionFacts.

Import NumPy Sklearn Ols.
Local Open Scope R_scope.

(** *** Sums over arrays *)

Lemma Rsum_app (l1 l2 : list R) : Rsum (l1 ++ l2) = Rsum l1 + Rsum l2.
Proof. induction l1 as [|x l IH]; simpl; [|rewrite IH]; ring. Qed.

Lemma Rsum_affine (alpha beta : R) (X : list R) :
  Rsum (map (fun x => alpha * x + beta) X) =
  alpha * Rsum X + INR (List.length X) * beta.
Proof.
  induction X as [|x l IH].
  - simpl. ring.
  - cbn [map Rsum fold_right List.length]. fold (Rsum (map (fun x => alpha * x + beta) l)).
    fold (Rsum l). rewrite IH, S_INR. ring.
Qed.

Lemma dot_nil_l (y : list R) : dot [] y = 0.
Proof. reflexivity. Qed.

Lemma dot_cons (x v : R) (X y : list R) :
  dot (x :: X) (v :: y) = x * v + dot X y.
Proof. reflexivity. Qed.

Lemma Rsum_cons (x : R) (X : list R) : Rsum (x :: X) = x + Rsum X.
Proof. reflexivity. Qed.

(** Inner products of shifted and rescaled columns, in terms of the plain
    sums. *)
Lemma dot_affine (alpha beta gamma delta : R) (X : list R) :
  forall y : list R, List.length X = List.length y ->
  dot (map (fun x => alpha * x + beta) X) (map (fun v => gamma * v + delta) y) =
  alpha * gamma * dot X y + alpha * delta * Rsum X + beta * gamma * Rsum y
  + INR (List.length X) * beta * delta.
Proof.
  induction X as [|x l IH]; intros [|v y] Hlen; try discriminate.
  - simpl. unfold dot. simpl. ring.
  - cbn [map List.length]. rewrite !dot_cons, !Rsum_cons, S_INR.
    rewrite IH by (simpl in Hlen; congruence). ring.
Qed.

Lemma dot_nonneg (X : list R) : 0 <= dot X X.
Proof.
  induction X as [|x l IH]; [unfold dot; simpl; lra|].
  rewrite dot_cons. nra.
Qed.

Lemma map_shift (c : R) (X : list R) :
  map (fun x => x - c) X = map (fun x => 1 * x + - c) X.
Proof. apply map_ext. intros x. ring. Qed.

Lemma dot_centred (c d : R) (X y : list R) :
  List.length X = List.length y ->
  dot (map (fun x => x - c) X) (map (fun v => v - d) y) =
  dot X y - d * Rsum X - c * Rsum y + INR (List.length X) * c * d.
Proof.
  intros Hlen. rewrite (map_shift c), (map_shift d), dot_affine by assumption.
  ring.
Qed.

(** The squared error of a line, in terms of the plain sums. *)
Lemma sse_moments (b a : R) (X : list R) :
  forall y : list R, List.length X = List.length y ->
  sse X y b a =
  dot y y - 2 * a * Rsum y - 2 * b * dot X y
  + INR (List.length X) * a * a + 2 * a * b * Rsum X + b * b * dot X X.
Proof.
  induction X as [|x l IH]; intros [|v y] Hlen; try discriminate.
  - unfold sse, dot. simpl. ring.
  - unfold sse in *. cbn [combine map List.length fst snd].
    rewrite !dot_cons, !Rsum_cons, S_INR.
    rewrite IH by (simpl in Hlen; congruence). ring.
Qed.

(** *** The fit in closed form *)

Lemma fit_closed_form (X y : list R) :
  List.length X = List.length y -> INR (List.length X) <> 0 ->
  LinearRegression_fit X y =
  mk_model (if Req_dec_T (cxx X) 0 then 0 else cxy X y / cxx X)
    (mean y - mean X * (if Req_dec_T (cxx X) 0 then 0 else cxy X y / cxx X)).
Proof.
  intros Hlen Hn. unfold LinearRegression_fit.
  rewrite !dot_centred by auto.
  assert (dot X X - mean X * Rsum X - mean X * Rsum X
          + INR (List.length X) * mean X * mean X = cxx X) as ->.
  { unfold cxx, mean. field. exact Hn. }
  assert (dot X y - mean y * Rsum X - mean X * Rsum y
          + INR (List.length X) * mean X * mean y = cxy X y) as ->.
  { unfold cxy, mean. rewrite <- Hlen. field. exact Hn. }
  reflexivity.
Qed.

Lemma cxx_nonneg (X : list R) : INR (List.length X) <> 0 -> 0 <= cxx X.
Proof.
  intros Hn.
  pose proof (dot_nonneg (map (fun x => x - mean X) X)) as H.
  rewrite dot_centred in H by reflexivity.
  replace (cxx X) with (dot X X - mean X * Rsum X - mean X * Rsum X
          + INR (List.length X) * mean X * mean X); [exact H|].
  unfold cxx, mean. field. exact Hn.
Qed.

Lemma length_INR_pos (X : list R) :
  INR (List.length X) <> 0 -> 0 < INR (List.length X).
Proof. intros H. pose proof (pos_INR (List.length X)). lra. Qed.

(** How much worse than the fitted line any other line is. *)
Lemma sse_gap (X y : list R) (b' a' : R) :
  List.length X = List.length y -> INR (List.length X) <> 0 -> cxx X <> 0 ->
  sse X y b' a'
  - sse X y (coef_ (LinearRegression_fit X y))
      (intercept_ (LinearRegression_fit X y)) =
  Rsqr (INR (List.length X) * (a' - intercept_ (LinearRegression_fit X y))
        + (b' - coef_ (LinearRegression_fit X y)) * Rsum X)
  / INR (List.length X)
  + Rsqr (b' - coef_ (LinearRegression_fit X y)) * cxx X.
Proof.
  intros Hlen Hn Hc.
  rewrite fit_closed_form by assumption. cbn [coef_ intercept_].
  destruct (Req_dec_T (cxx X) 0) as [E|_]; [contradiction|].
  rewrite !sse_moments by assumption.
  unfold Rsqr, mean, cxy. rewrite <- Hlen. unfold cxx in *.
  set (N := INR (List.length X)) in *.
  field. split; [exact Hn|]. intros H. apply Hc.
  replace (dot X X - Rsum X * Rsum X / N)
    with ((dot X X * N - Rsum X * Rsum X) / N) by (field; exact Hn).
  rewrite H. field. exact Hn.
Qed.

(** The fitted line minimises the squared error whenever the feature is not
    constant, and no other line does. *)
Lemma fit_least_squares (X y : list R) :
  List.length X = List.length y -> INR (List.length X) <> 0 -> cxx X <> 0 ->
  forall b a,
    least_squares X y b a <->
    b = coef_ (LinearRegression_fit X y)
    /\ a = intercept_ (LinearRegression_fit X y).
Proof.
  intros Hlen Hn Hc b a.
  pose proof (cxx_nonneg X Hn) as Hpos.
  pose proof (length_INR_pos X Hn) as HN.
  assert (forall b' a' : R,
            0 <= Rsqr (INR (List.length X)
                       * (a' - intercept_ (LinearRegression_fit X y))
                       + (b' - coef_ (LinearRegression_fit X y)) * Rsum X)
                 / INR (List.length X)) as Hq1.
  { intros b' a'. apply Rmult_le_pos; [apply Rle_0_sqr|].
    left. apply Rinv_0_lt_compat. exact HN. }
  split.
  - intros Hmin.
    specialize (Hmin (coef_ (LinearRegression_fit X y))
                  (intercept_ (LinearRegression_fit X y))).
    pose proof (sse_gap X y b a Hlen Hn Hc) as Hgap.
    pose proof (Hq1 b a) as H1.
    pose proof (Rle_0_sqr (b - coef_ (LinearRegression_fit X y))) as H2.
    set (u := a - intercept_ (LinearRegression_fit X y)) in *.
    set (v := b - coef_ (LinearRegression_fit X y)) in *.
    assert (0 <= Rsqr v * cxx X) as H3 by (apply Rmult_le_pos; assumption).
    assert (Rsqr v * cxx X = 0) as Hv0 by lra.
    assert (Rsqr (INR (List.length X) * u + v * Rsum X)
            / INR (List.length X) = 0) as Hu0 by lra.
    apply Rmult_integral in Hv0. destruct Hv0 as [Hv0|Hv0]; [|contradiction].
    apply Rsqr_0_uniq in Hv0.
    unfold Rdiv in Hu0. apply Rmult_integral in Hu0.
    destruct Hu0 as [Hu0|Hu0];
      [|exfalso; apply (Rinv_neq_0_compat _ Hn); exact Hu0].
    apply Rsqr_0_uniq in Hu0. rewrite Hv0 in Hu0.
    assert (u = 0) as Hu.
    { assert (INR (List.length X) * u = 0) as Hnu by lra.
      apply Rmult_integral in Hnu. tauto. }
    unfold u, v in *. split; lra.
  - intros [-> ->] b' a'.
    pose proof (sse_gap X y b' a' Hlen Hn Hc) as Hgap.
    pose proof (Hq1 b' a') as H1.
    pose proof (Rle_0_sqr (b' - coef_ (LinearRegression_fit X y))) as H2.
    assert (0 <= Rsqr (b' - coef_ (LinearRegression_fit X y)) * cxx X) as H3
      by (apply Rmult_le_pos; assumption).
    lra.
Qed.

(** *** The day index [0, 1, ..., n-1] *)

Lemma arange_S (n : nat) : arange (S n) = arange n ++ [INR n].
Proof. unfold arange. rewrite seq_S, map_app. reflexivity. Qed.

Lemma length_arange (n : nat) : List.length (arange n) = n.
Proof. unfold arange. rewrite length_map, length_seq. reflexivity. Qed.

Lemma Rsum_arange (n : nat) : Rsum (arange n) = INR n * (INR n - 1) / 2.
Proof.
  induction n as [|n IH].
  - simpl. field.
  - rewrite arange_S, Rsum_app, IH, S_INR. simpl. field.
Qed.

Lemma dot_self (X : list R) : dot X X = Rsum (map (fun x => x * x) X).
Proof.
  induction X as [|x l IH]; [reflexivity|].
  rewrite dot_cons, IH. reflexivity.
Qed.

Lemma dot_arange (n : nat) :
  dot (arange n) (arange n) = (INR n - 1) * INR n * (2 * INR n - 1) / 6.
Proof.
  rewrite dot_self.
  induction n as [|n IH].
  - simpl. field.
  - rewrite arange_S, map_app, Rsum_app, IH, S_INR. simpl. field.
Qed.

Lemma two_le_INR (n : nat) : (2 <= n)%nat -> 2 <= INR n.
Proof. intros H. apply le_INR in H. simpl in H. lra. Qed.

Lemma mean_arange (n : nat) :
  (2 <= n)%nat -> mean (arange n) = (INR n - 1) / 2.
Proof.
  intros Hn. apply two_le_INR in Hn. unfold mean.
  rewrite Rsum_arange, length_arange. field. lra.
Qed.

Lemma cxx_arange (n : nat) :
  (2 <= n)%nat ->
  cxx (arange n) = INR n * ((INR n - 1) * (INR n + 1) / 12).
Proof.
  intros Hn. apply two_le_INR in Hn. unfold cxx.
  rewrite dot_arange, Rsum_arange, length_arange. field. lra.
Qed.

(** The scaler finds the mean and deviation that the code writes in closed
    form, and the deviation is positive from two observations on. *)
Lemma scaler_arange (n : nat) :
  (2 <= n)%nat ->
  StandardScaler_fit (arange n) =
  mk_scaler ((INR n - 1) / 2) (sqrt ((INR n - 1) * (INR n + 1) / 12))
  /\ 0 < sqrt ((INR n - 1) * (INR n + 1) / 12).
Proof.
  intros Hn. pose proof (two_le_INR n Hn) as HN.
  assert (0 < sqrt ((INR n - 1) * (INR n + 1) / 12)) as Hs.
  { apply sqrt_lt_R0. nra. }
  split; [|exact Hs].
  unfold StandardScaler_fit.
  assert (mean (map (fun x => (x - mean (arange n)) * (x - mean (arange n)))
                  (arange n)) = (INR n - 1) * (INR n + 1) / 12) as ->.
  { unfold mean at 1. rewrite length_map, length_arange.
    rewrite <- (map_map (fun x => x - mean (arange n)) (fun x => x * x)).
    rewrite <- dot_self, dot_centred by reflexivity.
    rewrite mean_arange, dot_arange, Rsum_arange, length_arange by assumption.
    field. lra. }
  rewrite mean_arange by assumption.
  destruct (Req_dec_T _ 0) as [E|_]; [lra|]. reflexivity.
Qed.

(** *** Rescaling the feature *)

(** Fitting against [alpha * x + beta] divides the slope by [alpha] and
    moves the intercept accordingly: the fitted line is the same. *)
Lemma fit_affine (alpha beta : R) (X y : list R) :
  List.length X = List.length y -> INR (List.length X) <> 0 -> alpha <> 0 ->
  LinearRegression_fit (map (fun x => alpha * x + beta) X) y =
  mk_model (coef_ (LinearRegression_fit X y) / alpha)
    (intercept_ (LinearRegression_fit X y)
     - beta * coef_ (LinearRegression_fit X y) / alpha).
Proof.
  intros Hlen Hn Ha.
  set (Z := map (fun x => alpha * x + beta) X).
  assert (List.length Z = List.length X) as HlenZ by apply length_map.
  rewrite (fit_closed_form Z y) by (rewrite HlenZ; assumption).
  rewrite (fit_closed_form X y) by assumption. cbn [coef_ intercept_].
  assert (Rsum Z = alpha * Rsum X + INR (List.length X) * beta) as HsZ
    by apply Rsum_affine.
  assert (dot Z Z = alpha * alpha * dot X X + 2 * alpha * beta * Rsum X
                    + INR (List.length X) * beta * beta) as HZZ.
  { unfold Z. rewrite dot_affine by reflexivity. ring. }
  assert (dot Z y = alpha * dot X y + beta * Rsum y) as HZy.
  { unfold Z. rewrite <- (map_id y) at 1.
    rewrite (map_ext (fun v => v) (fun v => 1 * v + 0)) by (intros; ring).
    rewrite dot_affine by assumption. ring. }
  assert (cxx Z = alpha * alpha * cxx X) as Hcxx.
  { unfold cxx. rewrite HlenZ, HZZ, HsZ. field. exact Hn. }
  assert (cxy Z y = alpha * cxy X y) as Hcxy.
  { unfold cxy. rewrite HlenZ, HZy, HsZ. field. exact Hn. }
  assert (mean Z = alpha * mean X + beta) as HmZ.
  { unfold mean. rewrite HlenZ, HsZ. field. exact Hn. }
  rewrite Hcxx, Hcxy, HmZ.
  destruct (Req_dec_T (cxx X) 0) as [E|E].
  - destruct (Req_dec_T (alpha * alpha * cxx X) 0) as [_|E'].
    + f_equal; field; exact Ha.
    + exfalso. apply E'. rewrite E. ring.
  - destruct (Req_dec_T (alpha * alpha * cxx X) 0) as [E'|_].
    + exfalso. apply Rmult_integral in E'. destruct E' as [E'|E']; [|auto].
      apply Rmult_integral in E'. tauto.
    + f_equal; field; auto.
Qed.

Lemma transform_affine (sc : StandardScaler) (X : list R) :
  transform sc X =
  map (fun x => / scale_ sc * x + - mean_ sc * / scale_ sc) X.
Proof. unfold transform. apply map_ext. intros x. unfold Rdiv. ring. Qed.

Lemma np_div_finite (x s : R) : s <> 0 -> np_div (Fin x) (Fin s) = Fin (x / s).
Proof.
  intros Hs. unfold np_div. destruct (Req_dec_T s 0); [contradiction|reflexivity].
Qed.

(** *** Recovering the per-day coefficients (lines 47-56 and 71-77) *)

(** From two observations on, the coefficients converted back from the
    standardized fit are finite, and are those of the direct fit of the
    prices against the day index. *)
Lemma unscale_fit_scaled (y : list R) :
  (2 <= List.length y)%nat ->
  App.unscale (snd (App.fit_scaled y)) (List.length y) =
  (Fin (coef_ (LinearRegression_fit (arange (List.length y)) y)),
   Fin (intercept_ (LinearRegression_fit (arange (List.length y)) y))).
Proof.
  intros Hn. set (n := List.length y) in *.
  pose proof (two_le_INR n Hn) as HN.
  destruct (scaler_arange n Hn) as [Hsc Hs].
  set (s := sqrt ((INR n - 1) * (INR n + 1) / 12)) in *.
  unfold App.fit_scaled, fit_transform. fold n. cbn [snd].
  rewrite Hsc, transform_affine. cbn [mean_ scale_].
  rewrite fit_affine;
    [| rewrite length_arange; reflexivity
     | rewrite length_arange; lra
     | apply Rinv_neq_0_compat; lra ].
  set (m := LinearRegression_fit (arange n) y).
  unfold App.unscale, np_sqrt. fold s. cbn [coef_ intercept_].
  unfold np_mul. rewrite !np_div_finite by lra. unfold np_sub.
  f_equal; f_equal; field; lra.
Qed.

(** *** A single observation *)

Lemma fit_single (z p : R) : LinearRegression_fit [z] [p] = mk_model 0 p.
Proof.
  assert (INR (List.length [z]) <> 0) as Hn by (simpl; lra).
  rewrite fit_closed_form by auto.
  assert (cxx [z] = 0) as -> by (unfold cxx, dot; simpl; field).
  destruct (Req_dec_T 0 0) as [_|E]; [|contradiction].
  f_equal. unfold mean. simpl. field.
Qed.

(** With one observation the deviation written in closed form is zero, and
    dividing by it gives [nan] for both coefficients. *)
Lemma unscale_single (p : R) :
  np_sqrt ((INR 1 - 1) * (INR 1 + 1) / 12) = Fin 0
  /\ App.fit_scaled [p] = (fit_transform (arange 1), mk_model 0 p)
  /\ predict (mk_model 0 p) (fit_transform (arange 1)) = [p]
  /\ App.unscale (mk_model 0 p) 1 = (NaN, NaN).
Proof.
  assert (np_sqrt ((INR 1 - 1) * (INR 1 + 1) / 12) = Fin 0) as Hstd.
  { unfold np_sqrt. f_equal.
    replace ((INR 1 - 1) * (INR 1 + 1) / 12) with 0 by (simpl; field).
    apply sqrt_0. }
  repeat split.
  - exact Hstd.
  - unfold App.fit_scaled. cbn [List.length].
    unfold fit_transform, transform, arange. cbn [seq map].
    rewrite fit_single. reflexivity.
  - unfold fit_transform, transform, arange, predict. cbn [seq map coef_ intercept_].
    f_equal. ring.
  - unfold App.unscale. rewrite Hstd. cbn [coef_ intercept_].
    unfold np_mul, np_div.
    destruct (Req_dec_T 0 0) as [_|E]; [|contradiction].
    destruct (Req_dec_T (0 * ((INR 1 - 1) / 2)) 0) as [_|E];
      [reflexivity | exfalso; apply E; ring].
Qed.

End RegressionFacts.

(* ====================================================================== *)
(** ** Request dispatch: the three routes *)
(* ====================================================================== *)

Module DispatchFacts.

Import Py NumPy Datetime Sklearn App Derived.
Local Open Scope string_scope.

(** Lowercasing a character gives a given lowercase letter exactly when the
    character is that letter in either case. *)
Lemma lower_ascii_t (c : ascii) :
  Ascii.eqb (lower_ascii c) "t" = Ascii.eqb c "t" || Ascii.eqb c "T".
Proof. destruct c as [[] [] [] [] [] [] [] []]; reflexivity. Qed.

Lemma lower_ascii_r (c : ascii) :
  Ascii.eqb (lower_ascii c) "r" = Ascii.eqb c "r" || Ascii.eqb c "R".
Proof. destruct c as [[] [] [] [] [] [] [] []]; reflexivity. Qed.

Lemma lower_ascii_u (c : ascii) :
  Ascii.eqb (lower_ascii c) "u" = Ascii.eqb c "u" || Ascii.eqb c "U".
Proof. destruct c as [[] [] [] [] [] [] [] []]; reflexivity. Qed.

Lemma lower_ascii_e (c : ascii) :
  Ascii.eqb (lower_ascii c) "e" = Ascii.eqb c "e" || Ascii.eqb c "E".
Proof. destruct c as [[] [] [] [] [] [] [] []]; reflexivity. Qed.

(** [v.lower() == 'true'] holds for the sixteen spellings of [true] and for
    nothing else. *)
Lemma lower_spells_true (v : string) :
  String.eqb (lower v) "true" = spells_true v.
Proof.
  destruct v as [|a [|b [|c [|d [|e r]]]]];
    cbn [lower String.eqb spells_true];
    rewrite ?lower_ascii_t, ?lower_ascii_r, ?lower_ascii_u, ?lower_ascii_e;
    repeat match goal with
           | |- context [Ascii.eqb ?x ?y] => destruct (Ascii.eqb x y)
           end; reflexivity.
Qed.

Section Routes.

Variable now : datetime.
Variable history : string -> string -> string -> result DataFrame.
Variable info : string -> result (list (string * pyval)).
Variable format_fixed : nat -> R -> string.
Variable analyze_hedge_relationship :
  string -> string -> option string -> option string -> result pyval.
Variable calculate_portfolio_metrics :
  list string -> option string -> option string -> result portfolio_metrics.
Variable prepare_portfolio_data : pyval -> pyval -> pyval -> result pyval.

Local Abbreviation get_data := (get_data now history info format_fixed).
Local Abbreviation generate_regression_data :=
  (generate_regression_data now history info format_fixed).
Local Abbreviation generate_data := (generate_data now history info).
Local Abbreviation analyze_hedge := (analyze_hedge analyze_hedge_relationship).
Local Abbreviation portfolio_response :=
  (portfolio_response calculate_portfolio_metrics prepare_portfolio_data).
Local Abbreviation get_portfolio_metrics :=
  (get_portfolio_metrics calculate_portfolio_metrics prepare_portfolio_data).

Lemma truthy_false (v : option string) :
  truthy v = false <-> v = None \/ v = Some EmptyString.
Proof.
  destruct v as [[|c r]|]; simpl; split; intros H;
    try discriminate; auto; destruct H as [H|H]; discriminate.
Qed.

Lemma split_cons (sep : ascii) (s : string) :
  exists h t, split sep s = h :: t.
Proof.
  induction s as [|c r IH]; simpl.
  - eauto.
  - destruct (Ascii.eqb c sep); [eauto|].
    destruct (split sep r); eauto.
Qed.

(** The first piece of a split is empty exactly when the string is empty or
    starts with the separator. *)
Lemma split_head_empty (sep : ascii) (s : string) :
  no_ticker (split sep s) = true <->
  s = EmptyString \/ exists r, s = String sep r.
Proof.
  destruct s as [|c r]; simpl.
  - split; auto.
  - destruct (Ascii.eqb_spec c sep) as [->|Hne]; simpl.
    + split; eauto.
    + destruct (split sep r); simpl; split; try discriminate;
        intros [H|[r' H]]; try discriminate; inversion H; contradiction.
Qed.

Lemma portfolio_response_status (ts : list string) (sd ed : option string) :
  status (portfolio_response ts sd ed) = 200%Z
  \/ status (portfolio_response ts sd ed) = 500%Z.
Proof.
  unfold App.portfolio_response.
  destruct (calculate_portfolio_metrics ts sd ed) as [m|e]; simpl; auto.
  destruct (prepare_portfolio_data _ _ _); simpl; auto.
Qed.

(** What [/portfolio-metrics] answers once the list has passed validation,
    by the outcome of the two portfolio routines on that list. *)
Lemma portfolio_response_cases (ts : list string) (sd ed : option string) :
  (forall e,
     calculate_portfolio_metrics ts sd ed = Raise e ->
     portfolio_response ts sd ed =
     mk_response 500 (PDict [("error", PStr (exn_msg e))]))
  /\ (forall m e,
        calculate_portfolio_metrics ts sd ed = Ok m ->
        prepare_portfolio_data (opts m) (optv m) (rets m) = Raise e ->
        portfolio_response ts sd ed =
        mk_response 500 (PDict [("error", PStr (exn_msg e))]))
  /\ (forall m d,
        calculate_portfolio_metrics ts sd ed = Ok m ->
        prepare_portfolio_data (opts m) (optv m) (rets m) = Ok d ->
        portfolio_response ts sd ed =
        mk_response 200
          (PDict [("final_weights", PList (map PFloat (final_weights m)));
                  ("final_return", final_ret m);
                  ("final_volatility", final_vol m);
                  ("final_sharpe_ratio", final_sharpe m);
                  ("data", d)])).
Proof.
  unfold App.portfolio_response. repeat split.
  - intros e ->. reflexivity.
  - intros m e -> Hp. simpl. rewrite Hp. reflexivity.
  - intros m d -> Hp. simpl. rewrite Hp. reflexivity.
Qed.

(** C10: [/get-data] answers with the regression payload when the
    [regression] parameter is one of the spellings of [true] in upper or
    lower case, and with the plain payload for every other value ([1] and
    [yes] among them) and when the parameter is absent; the helper is
    called with the [ticker] parameter, or with [AAPL] when that is
    absent, and with the two date parameters as sent. *)
Theorem get_data_dispatch (a : args) :
  (forall v,
     args_get "regression" a = Some v -> spells_true v = true ->
     get_data a =
     jsonify (generate_regression_data
                (match args_get "ticker" a with
                 | Some t => t
                 | None => "AAPL"
                 end)
                (args_get "start_date" a) (args_get "end_date" a)))
  /\ (forall v,
        args_get "regression" a = Some v -> spells_true v = false ->
        get_data a =
        jsonify (generate_data
                   (match args_get "ticker" a with
                    | Some t => t
                    | None => "AAPL"
                    end)
                   (args_get "start_date" a) (args_get "end_date" a)))
  /\ (args_get "regression" a = None ->
      get_data a =
      jsonify (generate_data
                 (match args_get "ticker" a with
                  | Some t => t
                  | None => "AAPL"
                  end)
                 (args_get "start_date" a) (args_get "end_date" a)))
  /\ (include_regression a = true <->
      exists v, args_get "regression" a = Some v /\ spells_true v = true).
Proof.
  unfold App.get_data, include_regression, args_get_default, dict_get, args_get.
  repeat split.
  - intros v -> Hv. rewrite lower_spells_true, Hv. reflexivity.
  - intros v -> Hv. rewrite lower_spells_true, Hv. reflexivity.
  - intros ->. reflexivity.
  - destruct (dict_lookup "regression" a) as [v|].
    + rewrite lower_spells_true. intros Hv. exists v. auto.
    + discriminate.
  - intros (v & -> & Hv). rewrite lower_spells_true. exact Hv.
Qed.

(** C7: [/analyze-hedge] answers 400 with [{error: Both tickers are
    required}] when either ticker is absent or empty, and otherwise 200
    with exactly what the analyzer returned. *)
Theorem analyze_hedge_validation (a : args) :
  (truthy (args_get "ticker1" a) = false \/ truthy (args_get "ticker2" a) = false ->
   analyze_hedge a =
   Ok (mk_response 400 (PDict [("error", PStr "Both tickers are required")])))
  /\ (forall t1 t2 r,
        args_get "ticker1" a = Some t1 -> args_get "ticker2" a = Some t2 ->
        t1 <> EmptyString -> t2 <> EmptyString ->
        analyze_hedge_relationship t1 t2
          (args_get "start_date" a) (args_get "end_date" a) = Ok r ->
        analyze_hedge a = Ok (mk_response 200 r)).
Proof.
  split.
  - unfold App.analyze_hedge.
    intros [H|H]; apply truthy_false in H.
    + destruct H as [-> | ->]; reflexivity.
    + destruct (args_get "ticker1" a) as [[|c r]|]; try reflexivity.
      destruct H as [-> | ->]; reflexivity.
  - intros t1 t2 r H1 H2 Hn1 Hn2 Hr. unfold App.analyze_hedge.
    cbv zeta. rewrite H1, H2.
    destruct t1 as [|c1 r1]; [contradiction|].
    destruct t2 as [|c2 r2]; [contradiction|].
    rewrite Hr. reflexivity.
Qed.

(** C6: [/portfolio-metrics] answers 400 with an error body when [tickers]
    is absent or empty; for [AAPL,MSFT] the portfolio routine is run on the
    list [AAPL; MSFT] with the two dates as sent, and the answer is that
    run's: 500 with its message when it or the shaping of its result
    raises, 200 with its five fields otherwise. *)
Theorem portfolio_tickers (a : args) :
  (args_get "tickers" a = None \/ args_get "tickers" a = Some EmptyString ->
   get_portfolio_metrics a =
   mk_response 400 (PDict [("error", PStr "At least one ticker is required")]))
  /\ (args_get "tickers" a = Some "AAPL,MSFT" ->
      (forall e,
         calculate_portfolio_metrics ["AAPL"; "MSFT"]
           (args_get "start_date" a) (args_get "end_date" a) = Raise e ->
         get_portfolio_metrics a =
         mk_response 500 (PDict [("error", PStr (exn_msg e))]))
      /\ (forall m e,
            calculate_portfolio_metrics ["AAPL"; "MSFT"]
              (args_get "start_date" a) (args_get "end_date" a) = Ok m ->
            prepare_portfolio_data (opts m) (optv m) (rets m) = Raise e ->
            get_portfolio_metrics a =
            mk_response 500 (PDict [("error", PStr (exn_msg e))]))
      /\ (forall m d,
            calculate_portfolio_metrics ["AAPL"; "MSFT"]
              (args_get "start_date" a) (args_get "end_date" a) = Ok m ->
            prepare_portfolio_data (opts m) (optv m) (rets m) = Ok d ->
            get_portfolio_metrics a =
            mk_response 200
              (PDict [("final_weights",
                       PList (map PFloat (final_weights m)));
                      ("final_return", final_ret m);
                      ("final_volatility", final_vol m);
                      ("final_sharpe_ratio", final_sharpe m);
                      ("data", d)]))).
Proof.
  split.
  - unfold App.get_portfolio_metrics, args_get_default, dict_get, args_get.
    intros [-> | ->]; reflexivity.
  - intros Ht.
    assert (get_portfolio_metrics a =
            portfolio_response ["AAPL"; "MSFT"]
              (args_get "start_date" a) (args_get "end_date" a)) as ->.
    { unfold App.get_portfolio_metrics, args_get_default, dict_get.
      unfold args_get in Ht. rewrite Ht. reflexivity. }
    apply portfolio_response_cases.
Qed.

(** C9: [/portfolio-metrics] answers 400 exactly when the first piece of
    the comma-split [tickers] string is empty; [,AAPL] is rejected although
    it names a ticker; [AAPL,] passes, and the portfolio routine is run on
    the list [AAPL; (empty)], the empty piece included, the answer being
    that run's. *)
Theorem portfolio_first_ticker (a : args) :
  (status (get_portfolio_metrics a) = 400%Z <->
   exists rest,
     split "," (args_get_default "tickers" EmptyString a) = EmptyString :: rest)
  /\ (args_get "tickers" a = Some ",AAPL" ->
      get_portfolio_metrics a =
      mk_response 400
        (PDict [("error", PStr "At least one ticker is required")]))
  /\ (args_get "tickers" a = Some "AAPL," ->
      (forall e,
         calculate_portfolio_metrics ["AAPL"; EmptyString]
           (args_get "start_date" a) (args_get "end_date" a) = Raise e ->
         get_portfolio_metrics a =
         mk_response 500 (PDict [("error", PStr (exn_msg e))]))
      /\ (forall m e,
            calculate_portfolio_metrics ["AAPL"; EmptyString]
              (args_get "start_date" a) (args_get "end_date" a) = Ok m ->
            prepare_portfolio_data (opts m) (optv m) (rets m) = Raise e ->
            get_portfolio_metrics a =
            mk_response 500 (PDict [("error", PStr (exn_msg e))]))
      /\ (forall m d,
            calculate_portfolio_metrics ["AAPL"; EmptyString]
              (args_get "start_date" a) (args_get "end_date" a) = Ok m ->
            prepare_portfolio_data (opts m) (optv m) (rets m) = Ok d ->
            get_portfolio_metrics a =
            mk_response 200
              (PDict [("final_weights",
                       PList (map PFloat (final_weights m)));
                      ("final_return", final_ret m);
                      ("final_volatility", final_vol m);
                      ("final_sharpe_ratio", final_sharpe m);
                      ("data", d)]))).
Proof.
  split; [|split].
  - unfold App.get_portfolio_metrics, args_get_default, dict_get, args_get.
    destruct (split_cons "," (match dict_lookup "tickers" a with
                              | Some v => v | None => EmptyString end))
      as (h & t & ->).
    simpl. destruct (String.eqb_spec h EmptyString) as [->|Hne]; simpl.
    + split; eauto.
    + split.
      * intros Hs. exfalso.
        destruct (portfolio_response_status (h :: t)
                    (dict_lookup "start_date" a) (dict_lookup "end_date" a))
          as [H|H]; rewrite H in Hs; discriminate.
      * intros [rest E]. inversion E. contradiction.
  - unfold App.get_portfolio_metrics, args_get_default, dict_get, args_get.
    intros ->. reflexivity.
  - intros Ht.
    assert (get_portfolio_metrics a =
            portfolio_response ["AAPL"; EmptyString]
              (args_get "start_date" a) (args_get "end_date" a)) as ->.
    { unfold App.get_portfolio_metrics, args_get_default, dict_get.
      unfold args_get in Ht. rewrite Ht. reflexivity. }
    apply portfolio_response_cases.
Qed.

(** C4: once the tickers pass validation, [/portfolio-metrics] answers 500
    with [{error: str(e)}] when either portfolio routine raises [e], and
    otherwise 200 with the keys [final_weights], [final_return],
    [final_volatility], [final_sharpe_ratio] and [data]. *)
Theorem portfolio_errors (a : args) :
  no_ticker (split "," (args_get_default "tickers" EmptyString a)) = false ->
  (forall e,
     calculate_portfolio_metrics
       (split "," (args_get_default "tickers" EmptyString a))
       (args_get "start_date" a) (args_get "end_date" a) = Raise e ->
     get_portfolio_metrics a =
     mk_response 500 (PDict [("error", PStr (exn_msg e))]))
  /\ (forall m e,
        calculate_portfolio_metrics
          (split "," (args_get_default "tickers" EmptyString a))
          (args_get "start_date" a) (args_get "end_date" a) = Ok m ->
        prepare_portfolio_data (opts m) (optv m) (rets m) = Raise e ->
        get_portfolio_metrics a =
        mk_response 500 (PDict [("error", PStr (exn_msg e))]))
  /\ (forall m d,
        calculate_portfolio_metrics
          (split "," (args_get_default "tickers" EmptyString a))
          (args_get "start_date" a) (args_get "end_date" a) = Ok m ->
        prepare_portfolio_data (opts m) (optv m) (rets m) = Ok d ->
        get_portfolio_metrics a =
        mk_response 200
          (PDict [("final_weights", PList (map PFloat (final_weights m)));
                  ("final_return", final_ret m);
                  ("final_volatility", final_vol m);
                  ("final_sharpe_ratio", final_sharpe m);
                  ("data", d)])).
Proof.
  intros Hv. unfold App.get_portfolio_metrics. rewrite Hv.
  unfold App.portfolio_response. repeat split.
  - intros e ->. reflexivity.
  - intros m e -> Hp. simpl. rewrite Hp. reflexivity.
  - intros m d -> Hp. simpl. rewrite Hp. reflexivity.
Qed.

End Routes.

(** *** The theorems at sample requests *)

Import Samples.

Lemma get_data_dispatch_witness :
  get_data clock two_rows no_info fixed
    [("ticker", "MSFT"); ("regression", "TRUE")] =
  jsonify (generate_regression_data clock two_rows no_info fixed "MSFT"
             None None)
  /\ get_data clock two_rows no_info fixed [("regression", "true")] =
     jsonify (generate_regression_data clock two_rows no_info fixed "AAPL"
                None None)
  /\ get_data clock two_rows no_info fixed
       [("ticker", "MSFT"); ("regression", "yes")] =
     jsonify (generate_data clock two_rows no_info "MSFT" None None)
  /\ get_data clock two_rows no_info fixed [("regression", "1")] =
     jsonify (generate_data clock two_rows no_info "AAPL" None None)
  /\ get_data clock two_rows no_info fixed [] =
     jsonify (generate_data clock two_rows no_info "AAPL" None None).
Proof.
  refine (conj _ (conj _ (conj _ (conj _ _)))).
  - apply (proj1 (get_data_dispatch clock two_rows no_info fixed
                    [("ticker", "MSFT"); ("regression", "TRUE")])
             "TRUE"); reflexivity.
  - apply (proj1 (get_data_dispatch clock two_rows no_info fixed
                    [("regression", "true")])
             "true"); reflexivity.
  - apply (proj1 (proj2 (get_data_dispatch clock two_rows no_info fixed
                           [("ticker", "MSFT"); ("regression", "yes")]))
             "yes"); reflexivity.
  - apply (proj1 (proj2 (get_data_dispatch clock two_rows no_info fixed
                           [("regression", "1")]))
             "1"); reflexivity.
  - apply (proj1 (proj2 (proj2 (get_data_dispatch clock two_rows no_info fixed
                                  [])))).
    reflexivity.
Defined.

Example get_data_uppercase_true :
  include_regression [("regression", "TRUE")] = true
  /\ include_regression [("regression", "1")] = false
  /\ include_regression [] = false.
Proof. repeat split. Qed.

Lemma analyze_hedge_validation_witness :
  analyze_hedge analyzer [("ticker1", "AAPL")] =
  Ok (mk_response 400 (PDict [("error", PStr "Both tickers are required")]))
  /\ analyze_hedge analyzer [("ticker1", "AAPL"); ("ticker2", "MSFT")] =
     Ok (mk_response 200 (PDict [("hedge_ratio", PInt 1)])).
Proof.
  split.
  - apply (proj1 (analyze_hedge_validation analyzer [("ticker1", "AAPL")])).
    right. reflexivity.
  - apply (proj2 (analyze_hedge_validation analyzer
                    [("ticker1", "AAPL"); ("ticker2", "MSFT")])
             "AAPL" "MSFT"); try reflexivity; discriminate.
Defined.

Lemma portfolio_tickers_witness :
  get_portfolio_metrics MoreSamples.calculate_echo MoreSamples.prepare_third
    [("tickers", EmptyString)] =
  mk_response 400 (PDict [("error", PStr "At least one ticker is required")])
  /\ get_portfolio_metrics MoreSamples.calculate_echo MoreSamples.prepare_third
       [("tickers", "AAPL,MSFT")] =
     mk_response 200
       (PDict [("final_weights", PList []);
               ("final_return", PInt 0);
               ("final_volatility", PInt 0);
               ("final_sharpe_ratio", PInt 0);
               ("data", PList [PStr "AAPL"; PStr "MSFT"])])
  /\ get_portfolio_metrics calculate_fails prepare_ok
       [("tickers", "AAPL,MSFT")] =
     mk_response 500 (PDict [("error", PStr "no price history")]).
Proof.
  split; [|split].
  - apply (proj1 (portfolio_tickers MoreSamples.calculate_echo
                    MoreSamples.prepare_third [("tickers", EmptyString)])).
    right. reflexivity.
  - apply (proj2 (proj2 (proj2 (portfolio_tickers MoreSamples.calculate_echo
                                  MoreSamples.prepare_third
                                  [("tickers", "AAPL,MSFT")])
                           eq_refl))
             (mk_metrics [] (PInt 0) (PInt 0) (PInt 0) PNone PNone
                (PList [PStr "AAPL"; PStr "MSFT"]))
             (PList [PStr "AAPL"; PStr "MSFT"])); reflexivity.
  - apply (proj1 (proj2 (portfolio_tickers calculate_fails prepare_ok
                           [("tickers", "AAPL,MSFT")])
                    eq_refl)
             (mk_exn "ValueError" "no price history")).
    reflexivity.
Defined.

Lemma portfolio_first_ticker_witness :
  get_portfolio_metrics MoreSamples.calculate_echo MoreSamples.prepare_third
    [("tickers", ",AAPL")] =
  mk_response 400 (PDict [("error", PStr "At least one ticker is required")])
  /\ get_portfolio_metrics MoreSamples.calculate_echo MoreSamples.prepare_third
       [("tickers", "AAPL,")] =
     mk_response 200
       (PDict [("final_weights", PList []);
               ("final_return", PInt 0);
               ("final_volatility", PInt 0);
               ("final_sharpe_ratio", PInt 0);
               ("data", PList [PStr "AAPL"; PStr EmptyString])])
  /\ status (get_portfolio_metrics MoreSamples.calculate_echo
               MoreSamples.prepare_third [("tickers", ",AAPL")]) = 400%Z.
Proof.
  split; [|split].
  - apply (proj1 (proj2 (portfolio_first_ticker MoreSamples.calculate_echo
                           MoreSamples.prepare_third
                           [("tickers", ",AAPL")]))).
    reflexivity.
  - apply (proj2 (proj2 (proj2 (proj2 (portfolio_first_ticker
                                         MoreSamples.calculate_echo
                                         MoreSamples.prepare_third
                                         [("tickers", "AAPL,")]))
                           eq_refl))
             (mk_metrics [] (PInt 0) (PInt 0) (PInt 0) PNone PNone
                (PList [PStr "AAPL"; PStr EmptyString]))
             (PList [PStr "AAPL"; PStr EmptyString])); reflexivity.
  - apply (proj1 (portfolio_first_ticker MoreSamples.calculate_echo
                    MoreSamples.prepare_third [("tickers", ",AAPL")])).
    exists ["AAPL"]. reflexivity.
Defined.

Lemma portfolio_errors_witness :
  get_portfolio_metrics calculate_fails prepare_ok [("tickers", "AAPL,MSFT")] =
  mk_response 500 (PDict [("error", PStr "no price history")])
  /\ get_portfolio_metrics calculate_ok prepare_fails [("tickers", "AAPL,MSFT")] =
     mk_response 500 (PDict [("error", PStr "frontier")])
  /\ get_portfolio_metrics calculate_ok prepare_ok [("tickers", "AAPL,MSFT")] =
     mk_response 200
       (PDict [("final_weights", PList [PFloat (Fin 1%R)]);
               ("final_return", PInt 0);
               ("final_volatility", PInt 0);
               ("final_sharpe_ratio", PInt 0);
               ("data", PList [])]).
Proof.
  split; [|split].
  - apply (proj1 (portfolio_errors calculate_fails prepare_ok
                    [("tickers", "AAPL,MSFT")] eq_refl)
             (mk_exn "ValueError" "no price history")).
    reflexivity.
  - apply (proj1 (proj2 (portfolio_errors calculate_ok prepare_fails
                           [("tickers", "AAPL,MSFT")] eq_refl))
             metrics (mk_exn "KeyError" "frontier")); reflexivity.
  - apply (proj2 (proj2 (portfolio_errors calculate_ok prepare_ok
                           [("tickers", "AAPL,MSFT")] eq_refl))
             metrics (PList [])); reflexivity.
Defined.

End DispatchFacts.

(* ====================================================================== *)
(** ** [/get-data]: the date window, the payloads, the regression *)
(* ====================================================================== *)

Module GetDataFacts.

Import Py NumPy Datetime Sklearn App Ols.
Import DatetimeFacts RegressionFacts.
Local Open Scope string_scope.

Section Fetching.

Variable now : datetime.
Variable history : string -> string -> string -> result DataFrame.
Variable info : string -> result (list (string * pyval)).
Variable format_fixed : nat -> R -> string.

Local Abbreviation resolve_dates := (resolve_dates now).
Local Abbreviation fetch := (fetch now history).
Local Abbreviation generate_regression_data_try :=
  (generate_regression_data_try now history info format_fixed).
Local Abbreviation generate_regression_data :=
  (generate_regression_data now history info format_fixed).
Local Abbreviation generate_data_try := (generate_data_try now history info).
Local Abbreviation generate_data := (generate_data now history info).
Local Abbreviation get_data := (get_data now history info format_fixed).

Lemma resolve_dates_default (sd ed : option string) :
  truthy sd = false \/ truthy ed = false ->
  resolve_dates sd ed =
  bind (sub_days now 1) (fun end_dt =>
  bind (sub_days end_dt 90) (fun start_dt => Ok (start_dt, end_dt))).
Proof.
  unfold App.resolve_dates.
  destruct sd as [[|c r]|]; destruct ed as [[|c' r']|]; simpl;
    intros [H|H]; try discriminate; reflexivity.
Qed.

(** C5: for a [/get-data] request whose [start_date] and [end_date] are
    not both given, the window ends on the day before the clock's and
    starts 90 days before that end, and the provider is asked for exactly
    these two days; when both are ISO dates of the years 1000 to 9999, the
    provider is asked for them as they were written (for earlier years the
    text that [strftime] writes depends on the platform).  Both helpers
    fetch through [fetch]. *)
Theorem date_window (a : args) :
  (truthy (args_get "start_date" a) = false
   \/ truthy (args_get "end_date" a) = false ->
   valid now = true -> (91 < to_ordinal now)%Z ->
   exists start_dt end_dt,
     resolve_dates (args_get "start_date" a) (args_get "end_date" a) =
     Ok (start_dt, end_dt)
     /\ valid start_dt = true /\ valid end_dt = true
     /\ to_ordinal end_dt = (to_ordinal now - 1)%Z
     /\ to_ordinal start_dt = (to_ordinal end_dt - 90)%Z
     /\ fetch (args_get_default "ticker" "AAPL" a)
          (args_get "start_date" a) (args_get "end_date" a) =
        history (args_get_default "ticker" "AAPL" a)
          (strftime_Ymd start_dt) (strftime_Ymd end_dt))
  /\ (forall s e,
        args_get "start_date" a = Some s -> args_get "end_date" a = Some e ->
        is_iso_date s = true -> is_iso_date e = true ->
        (1000 <= iso_year s)%Z -> (1000 <= iso_year e)%Z ->
        exists start_dt end_dt,
          resolve_dates (args_get "start_date" a) (args_get "end_date" a) =
          Ok (start_dt, end_dt)
          /\ strftime_Ymd start_dt = s /\ strftime_Ymd end_dt = e
          /\ strftime_Ymd_unpadded start_dt = s
          /\ strftime_Ymd_unpadded end_dt = e
          /\ fetch (args_get_default "ticker" "AAPL" a)
               (args_get "start_date" a) (args_get "end_date" a) =
             history (args_get_default "ticker" "AAPL" a) s e).
Proof.
  set (sd := args_get "start_date" a). set (ed := args_get "end_date" a).
  set (ticker := args_get_default "ticker" "AAPL" a).
  split.
  - intros Hnot Hv Ho.
    destruct (sub_days_ordinal 1 now Hv) as (e1 & He1 & Hve & Hoe & _);
      [simpl; lia|].
    destruct (sub_days_ordinal 90 e1 Hve) as (s1 & Hs1 & Hvs & Hos & _);
      [simpl; lia|].
    exists s1, e1.
    assert (resolve_dates sd ed = Ok (s1, e1)) as Hr.
    { rewrite resolve_dates_default by assumption.
      rewrite He1. cbn [bind]. rewrite Hs1. reflexivity. }
    split; [exact Hr|]. split; [exact Hvs|]. split; [exact Hve|].
    split; [rewrite Hoe; simpl; lia|]. split; [rewrite Hos; simpl; lia|].
    unfold App.fetch. rewrite Hr. reflexivity.
  - intros s e Hsd Hed Hs He Hys Hye. rewrite Hsd, Hed.
    destruct (iso_roundtrip s Hs) as (ds & Hps & Hfs & Hvs & _).
    destruct (iso_roundtrip e He) as (de & Hpe & Hfe & Hve & _).
    assert (strftime_Ymd_unpadded ds = s) as Hus.
    { rewrite strftime_unpadded_eq; [exact Hfs|].
      rewrite <- (iso_year_strftime ds Hvs), Hfs. exact Hys. }
    assert (strftime_Ymd_unpadded de = e) as Hue.
    { rewrite strftime_unpadded_eq; [exact Hfe|].
      rewrite <- (iso_year_strftime de Hve), Hfe. exact Hye. }
    exists ds, de.
    assert (resolve_dates (Some s) (Some e) = Ok (ds, de)) as Hr.
    { unfold App.resolve_dates.
      destruct s as [|c r]; [discriminate|].
      destruct e as [|c' r']; [discriminate|].
      rewrite Hps. cbn [bind]. rewrite Hpe. reflexivity. }
    repeat split; auto.
    unfold App.fetch. rewrite Hr. cbn [bind fst snd].
    rewrite Hfs, Hfe. reflexivity.
Qed.

(** C2, as the code has it: when the provider's frame for the resolved
    window has no rows, [/get-data] answers 200 with the empty object,
    whether or not the regression was asked for. *)
Theorem empty_frame_payload (a : args) (w : datetime * datetime) :
  resolve_dates (args_get "start_date" a) (args_get "end_date" a) = Ok w ->
  history (args_get_default "ticker" "AAPL" a)
    (strftime_Ymd (fst w)) (strftime_Ymd (snd w)) = Ok [] ->
  get_data a = mk_response 200 (PDict []).
Proof.
  intros Hr Hh. unfold App.get_data.
  unfold App.generate_regression_data, App.generate_data,
    App.generate_regression_data_try, App.generate_data_try, App.fetch.
  rewrite Hr. cbn [bind]. rewrite Hh. cbn [bind try_except].
  destruct (include_regression a); reflexivity.
Qed.

(** C3, as the code has it: whenever the fetch raises, or the frame has
    rows and reading the issuer's metadata raises, the regression helper
    returns its six default fields and the plain helper its two; neither
    is the empty object returned for a frame without rows. *)
Theorem exception_payloads (ticker : string) (sd ed : option string)
  (e : exn) :
  fetch ticker sd ed = Raise e
  \/ (exists row rest,
        fetch ticker sd ed = Ok (row :: rest) /\ info ticker = Raise e) ->
  generate_regression_data ticker sd ed = default_regression ticker
  /\ generate_data ticker sd ed = default_data ticker
  /\ default_regression ticker <> PDict []
  /\ default_data ticker <> PDict [].
Proof.
  intros H.
  unfold App.generate_regression_data, App.generate_data,
    App.generate_regression_data_try, App.generate_data_try.
  repeat split; try discriminate.
  - destruct H as [-> | (row & rest & -> & Hi)]; [reflexivity|].
    cbn [bind]. destruct (fit_scaled (map snd (row :: rest))) as [Xs model].
    rewrite Hi. reflexivity.
  - destruct H as [-> | (row & rest & -> & Hi)]; [reflexivity|].
    cbn [bind]. rewrite Hi. reflexivity.
Qed.

(** The [try] block raises only for the two reasons above. *)
Lemma regression_try_raises (ticker : string) (sd ed : option string)
  (e : exn) :
  generate_regression_data_try ticker sd ed = Raise e ->
  fetch ticker sd ed = Raise e
  \/ (exists row rest,
        fetch ticker sd ed = Ok (row :: rest) /\ info ticker = Raise e).
Proof.
  unfold App.generate_regression_data_try.
  destruct (fetch ticker sd ed) as [[|row rest]|e']; cbn [bind].
  - discriminate.
  - destruct (fit_scaled (map snd (row :: rest))) as [Xs model].
    destruct (info ticker) as [i|e'']; cbn [bind].
    + destruct (unscale model _). discriminate.
    + intros H; inversion H; subst. right. eauto.
  - intros H; inversion H; subst. auto.
Qed.

(** C1: from two observations on, the slope and intercept in the payload are
    finite and are those of the direct fit of the closing prices against
    the day index 0, 1, ..., n-1; that fit is the one line of least squared
    error. *)
Theorem regression_recovers_ols (ticker : string) (sd ed : option string)
  (df : DataFrame) (i : list (string * pyval)) :
  fetch ticker sd ed = Ok df ->
  info ticker = Ok i ->
  (2 <= List.length df)%nat ->
  (exists prices regression company formula,
     generate_regression_data ticker sd ed =
     PDict [("prices", prices); ("regression", regression);
            ("companyName", company);
            ("slope",
             PFloat (Fin (coef_ (LinearRegression_fit
                                   (arange (List.length df)) (map snd df)))));
            ("intercept",
             PFloat (Fin (intercept_ (LinearRegression_fit
                                        (arange (List.length df))
                                        (map snd df)))));
            ("formula", formula)])
  /\ (forall b a,
        least_squares (arange (List.length df)) (map snd df) b a <->
        b = coef_ (LinearRegression_fit (arange (List.length df)) (map snd df))
        /\ a = intercept_ (LinearRegression_fit (arange (List.length df))
                             (map snd df))).
Proof.
  intros Hf Hi Hn. split.
  - unfold App.generate_regression_data, App.generate_regression_data_try.
    rewrite Hf. cbn [bind].
    destruct df as [|row rest]; [simpl in Hn; lia|].
    pose proof (unscale_fit_scaled (map snd (row :: rest))) as Hu.
    rewrite length_map in Hu. specialize (Hu Hn).
    destruct (fit_scaled (map snd (row :: rest))) as [Xs model].
    cbn [snd] in Hu. rewrite Hi. cbn [bind]. rewrite Hu. cbn [try_except].
    eexists _, _, _, _. reflexivity.
  - apply fit_least_squares.
    + rewrite length_arange, length_map. reflexivity.
    + rewrite length_arange. apply two_le_INR in Hn. lra.
    + rewrite cxx_arange by assumption. apply two_le_INR in Hn. nra.
Qed.

(** One observation: the [try] block ends in [return], with [nan] for both
    coefficients. *)
Lemma regression_try_single (ticker : string) (sd ed : option string)
  (d : datetime) (p : R) (i : list (string * pyval)) :
  fetch ticker sd ed = Ok [(d, p)] ->
  info ticker = Ok i ->
  generate_regression_data_try ticker sd ed =
  Ok (PDict [("prices", PDict [(strftime_Ymd d, PFloat (Fin p))]);
             ("regression", PDict [(strftime_Ymd d, PFloat (Fin p))]);
             ("companyName", dict_get "longName" (PStr ticker) i);
             ("slope", PFloat NaN);
             ("intercept", PFloat NaN);
             ("formula", PStr "price = nan * days + nan")]).
Proof.
  intros Hf Hi.
  destruct (unscale_single p) as (Hstd & Hfit & Hpred & Hun).
  unfold App.generate_regression_data_try. rewrite Hf. cbn [bind map snd fst].
  rewrite Hfit, Hi. cbn [bind List.length]. rewrite Hun, Hpred.
  reflexivity.
Qed.

(** C8, as the code has it: with a single observation the closed-form
    deviation is 0 and the standardized slope is 0; NumPy's division
    raises nothing and gives [nan], so the payload is returned with slope
    [nan], intercept [nan] and the formula spelled with [nan].  Nothing in
    the regression code looks at [n]; a frame without rows is answered
    before that code is reached. *)
Theorem single_observation (ticker : string) (sd ed : option string)
  (i : list (string * pyval)) :
  info ticker = Ok i ->
  (forall d p,
     fetch ticker sd ed = Ok [(d, p)] ->
     np_sqrt ((INR 1 - 1) * (INR 1 + 1) / 12) = Fin 0
     /\ coef_ (snd (fit_scaled [p])) = 0%R
     /\ generate_regression_data_try ticker sd ed =
        Ok (PDict [("prices", PDict [(strftime_Ymd d, PFloat (Fin p))]);
                   ("regression", PDict [(strftime_Ymd d, PFloat (Fin p))]);
                   ("companyName", dict_get "longName" (PStr ticker) i);
                   ("slope", PFloat NaN);
                   ("intercept", PFloat NaN);
                   ("formula", PStr "price = nan * days + nan")]))
  /\ (fetch ticker sd ed = Ok [] ->
      generate_regression_data_try ticker sd ed = Ok (PDict [])).
Proof.
  intros Hi. split.
  - intros d p Hf.
    destruct (unscale_single p) as (Hstd & Hfit & _).
    split; [exact Hstd|]. split; [rewrite Hfit; reflexivity|].
    apply regression_try_single; assumption.
  - intros Hf. unfold App.generate_regression_data_try. rewrite Hf.
    reflexivity.
Qed.

End Fetching.

(** *** The theorems at sample requests *)

Import Samples.

Example fit_two_days :
  LinearRegression_fit (arange 2) [100%R; 104%R] = mk_model 4 100.
Proof.
  rewrite fit_closed_form by (simpl; auto; lra).
  assert (cxx (arange 2) = (1 / 2)%R) as ->
    by (unfold cxx, dot, arange; simpl; field).
  assert (cxy (arange 2) [100%R; 104%R] = 2%R) as ->
    by (unfold cxy, dot, arange; simpl; field).
  destruct (Req_dec_T (1 / 2) 0) as [E|_]; [lra|].
  f_equal; unfold mean, arange; simpl; field.
Qed.

Lemma date_window_witness :
  (exists start_dt end_dt,
     resolve_dates clock None None = Ok (start_dt, end_dt)
     /\ valid start_dt = true /\ valid end_dt = true
     /\ to_ordinal end_dt = (to_ordinal clock - 1)%Z
     /\ to_ordinal start_dt = (to_ordinal end_dt - 90)%Z
     /\ fetch clock no_rows "AAPL" None None =
        no_rows "AAPL" (strftime_Ymd start_dt) (strftime_Ymd end_dt))
  /\ (exists start_dt end_dt,
        resolve_dates clock (Some "2024-02-29") (Some "2024-05-31") =
        Ok (start_dt, end_dt)
        /\ strftime_Ymd start_dt = "2024-02-29"
        /\ strftime_Ymd end_dt = "2024-05-31"
        /\ strftime_Ymd_unpadded start_dt = "2024-02-29"
        /\ strftime_Ymd_unpadded end_dt = "2024-05-31"
        /\ fetch clock no_rows "MSFT" (Some "2024-02-29") (Some "2024-05-31") =
           no_rows "MSFT" "2024-02-29" "2024-05-31").
Proof.
  split.
  - apply (proj1 (date_window clock no_rows [])).
    + left. reflexivity.
    + reflexivity.
    + reflexivity.
  - apply (proj2 (date_window clock no_rows
                    [("ticker", "MSFT"); ("start_date", "2024-02-29");
                     ("end_date", "2024-05-31")])
             "2024-02-29" "2024-05-31"); try reflexivity; simpl; lia.
Defined.

(** A date that [strptime] accepts but that is not written the ISO way
    reaches the provider rewritten. *)
Example unpadded_dates_are_rewritten :
  fetch clock two_rows "MSFT" (Some "2024-3-1") (Some "2024-5-31") =
  two_rows "MSFT" "2024-03-01" "2024-05-31"
  /\ is_iso_date "2024-3-1" = false.
Proof. split; reflexivity. Qed.

(** Before year 1000 the two renderings of [%Y] part ways. *)
Example early_years_depend_on_platform :
  is_iso_date "0999-01-01" = true
  /\ strftime_Ymd (mk_datetime 999 1 1 0 0 0 0) = "0999-01-01"
  /\ strftime_Ymd_unpadded (mk_datetime 999 1 1 0 0 0 0) = "999-01-01".
Proof. repeat split. Qed.

Lemma empty_frame_payload_witness :
  get_data clock no_rows no_info fixed [("ticker", "MSFT"); ("regression", "true")]
  = mk_response 200 (PDict [])
  /\ get_data clock no_rows no_info fixed [("ticker", "MSFT")]
     = mk_response 200 (PDict []).
Proof.
  split.
  - apply (empty_frame_payload clock no_rows no_info fixed
             [("ticker", "MSFT"); ("regression", "true")]
             (mk_datetime 2026 8 4 9 30 0 0, mk_datetime 2026 11 2 9 30 0 0));
      reflexivity.
  - apply (empty_frame_payload clock no_rows no_info fixed
             [("ticker", "MSFT")]
             (mk_datetime 2026 8 4 9 30 0 0, mk_datetime 2026 11 2 9 30 0 0));
      reflexivity.
Defined.

(** The claim's body for an empty frame is not what the route answers. *)
Lemma empty_frame_not_default :
  get_data clock no_rows no_info fixed [("ticker", "MSFT"); ("regression", "true")]
  <> mk_response 200 (default_regression "MSFT")
  /\ get_data clock no_rows no_info fixed [("ticker", "MSFT")]
     <> mk_response 200 (default_data "MSFT").
Proof. split; intros H; vm_compute in H; discriminate H. Qed.

Lemma exception_payloads_witness :
  generate_regression_data clock outage no_info fixed "MSFT" None None
  = default_regression "MSFT"
  /\ generate_data clock outage no_info "MSFT" None None = default_data "MSFT"
  /\ default_regression "MSFT" <> PDict []
  /\ default_data "MSFT" <> PDict [].
Proof.
  apply (exception_payloads clock outage no_info fixed "MSFT" None None
           (mk_exn "ConnectionError" "provider unreachable")).
  left. reflexivity.
Defined.

(** What a helper returns when the provider raises is not what it returns
    for a frame without rows. *)
Lemma exception_not_empty_shape :
  generate_regression_data clock outage no_info fixed "MSFT" None None
  <> generate_regression_data clock no_rows no_info fixed "MSFT" None None
  /\ generate_data clock outage no_info "MSFT" None None
     <> generate_data clock no_rows no_info "MSFT" None None.
Proof. split; intros H; vm_compute in H; discriminate H. Qed.

Lemma regression_recovers_ols_witness :
  (exists prices regression company formula,
     generate_regression_data clock two_rows no_info fixed "MSFT" None None =
     PDict [("prices", prices); ("regression", regression);
            ("companyName", company);
            ("slope",
             PFloat (Fin (coef_ (LinearRegression_fit
                                   (arange 2) [100%R; 104%R]))));
            ("intercept",
             PFloat (Fin (intercept_ (LinearRegression_fit
                                        (arange 2) [100%R; 104%R]))));
            ("formula", formula)])
  /\ (forall b a,
        least_squares (arange 2) [100%R; 104%R] b a <->
        b = coef_ (LinearRegression_fit (arange 2) [100%R; 104%R])
        /\ a = intercept_ (LinearRegression_fit (arange 2) [100%R; 104%R])).
Proof.
  apply (regression_recovers_ols clock two_rows no_info fixed "MSFT" None None
           [(friday, 100%R); (monday, 104%R)] []).
  - reflexivity.
  - reflexivity.
  - simpl. lia.
Defined.

Lemma single_observation_witness :
  np_sqrt ((INR 1 - 1) * (INR 1 + 1) / 12) = Fin 0
  /\ coef_ (snd (fit_scaled [100%R])) = 0%R
  /\ generate_regression_data_try clock one_row no_info fixed "MSFT" None None =
     Ok (PDict [("prices", PDict [("2026-10-30", PFloat (Fin 100))]);
                ("regression", PDict [("2026-10-30", PFloat (Fin 100))]);
                ("companyName", PStr "MSFT");
                ("slope", PFloat NaN);
                ("intercept", PFloat NaN);
                ("formula", PStr "price = nan * days + nan")]).
Proof.
  apply (proj1 (single_observation clock one_row no_info fixed "MSFT" None None
                  [] eq_refl) friday 100%R).
  reflexivity.
Defined.

(** With one observation nothing is raised: the [try] block returns, and
    the answer is not the handler's. *)
Lemma single_observation_no_error :
  ~ (exists e,
       generate_regression_data_try clock one_row no_info fixed "MSFT" None None
       = Raise e)
  /\ generate_regression_data clock one_row no_info fixed "MSFT" None None
     <> default_regression "MSFT".
Proof.
  assert (fetch clock one_row "MSFT" None None = Ok [(friday, 100%R)]) as Hf
    by reflexivity.
  pose proof (regression_try_single clock one_row no_info fixed "MSFT" None None
                friday 100%R [] Hf eq_refl) as Ht.
  split.
  - intros [e He]. rewrite Ht in He. discriminate He.
  - unfold App.generate_regression_data. rewrite Ht. cbn [try_except].
    discriminate.
Qed.

End GetDataFacts.

(* ====================================================================== *)
(** ** Dictionaries built by comprehension *)
(* ====================================================================== *)

Module DictFacts.

Import Py Derived.

Section Dict.

Context {V : Type}.

Lemma dict_lookup_app (k : string) (d1 d2 : list (string * V)) :
  dict_lookup k (d1 ++ d2) =
  match dict_lookup k d1 with
  | Some v => Some v
  | None => dict_lookup k d2
  end.
Proof.
  induction d1 as [|[k1 v1] d1 IH]; simpl; [reflexivity|].
  destruct (String.eqb k k1); [reflexivity|exact IH].
Qed.

Lemma dict_lookup_none (k : string) (d : list (string * V)) :
  dict_lookup k d = None <-> ~ In k (map fst d).
Proof.
  induction d as [|[k1 v1] d IH]; simpl.
  - tauto.
  - destruct (String.eqb_spec k k1) as [->|Hne].
    + split; [discriminate|]. intros H. exfalso. apply H. auto.
    + rewrite IH. split; [intros H [E|E]; [congruence|auto] | tauto].
Qed.

(** Assigning to a key and reading it back. *)
Lemma dict_lookup_set (k k' : string) (v : V) (d : list (string * V)) :
  dict_lookup k' (dict_set k v d) =
  if String.eqb k' k then Some v else dict_lookup k' d.
Proof.
  induction d as [|[k1 v1] d IH]; simpl.
  - destruct (String.eqb k' k); reflexivity.
  - destruct (String.eqb_spec k k1) as [->|Hne]; simpl.
    + destruct (String.eqb k' k1); reflexivity.
    + rewrite IH. destruct (String.eqb_spec k' k1) as [->|Hne'].
      * destruct (String.eqb_spec k1 k); [congruence|reflexivity].
      * reflexivity.
Qed.

(** Assigning to a fresh key appends; the keys stay distinct either way. *)
Lemma dict_set_fresh (k : string) (v : V) (d : list (string * V)) :
  ~ In k (map fst d) -> dict_set k v d = d ++ [(k, v)].
Proof.
  induction d as [|[k1 v1] d IH]; simpl; intros Hk; [reflexivity|].
  destruct (String.eqb_spec k k1) as [->|Hne]; [tauto|].
  rewrite IH by tauto. reflexivity.
Qed.

Lemma dict_set_keys (k : string) (v : V) (d : list (string * V)) :
  map fst (dict_set k v d) =
  if existsb (String.eqb k) (map fst d) then map fst d else map fst d ++ [k].
Proof.
  induction d as [|[k1 v1] d IH]; simpl; [reflexivity|].
  destruct (String.eqb_spec k k1) as [->|Hne]; simpl; [reflexivity|].
  rewrite IH. destruct (existsb (String.eqb k) (map fst d)); reflexivity.
Qed.

Lemma existsb_eqb_In (k : string) (ks : list string) :
  existsb (String.eqb k) ks = true <-> In k ks.
Proof.
  rewrite existsb_exists. split.
  - intros (x & Hx & E). apply String.eqb_eq in E. subst. exact Hx.
  - intros H. exists k. split; [exact H|apply String.eqb_refl].
Qed.

Lemma dict_set_NoDup (k : string) (v : V) (d : list (string * V)) :
  NoDup (map fst d) -> NoDup (map fst (dict_set k v d)).
Proof.
  intros Hd. rewrite dict_set_keys.
  destruct (existsb (String.eqb k) (map fst d)) eqn:E; [exact Hd|].
  assert (~ In k (map fst d)) as Hk.
  { intros H. apply existsb_eqb_In in H. congruence. }
  apply NoDup_app; [exact Hd | constructor; [simpl; tauto|constructor] |].
  intros x Hx [<-|[]]. exact (Hk Hx).
Qed.

Lemma fold_step_lookup (k : string) (pairs : list (string * V)) :
  forall d,
    dict_lookup k (fold_left dict_step pairs d) =
    match last_value k pairs with
    | Some v => Some v
    | None => dict_lookup k d
    end.
Proof.
  unfold last_value.
  induction pairs as [|[k1 v1] pairs IH]; intros d; simpl; [reflexivity|].
  rewrite IH, dict_lookup_app. unfold dict_step at 1. simpl.
  rewrite dict_lookup_set.
  destruct (dict_lookup k (rev pairs)); [reflexivity|].
  destruct (String.eqb k k1); reflexivity.
Qed.

Lemma fold_step_NoDup (pairs : list (string * V)) :
  forall d, NoDup (map fst d) -> NoDup (map fst (fold_left dict_step pairs d)).
Proof.
  induction pairs as [|kv pairs IH]; intros d Hd; simpl; [exact Hd|].
  apply IH. apply dict_set_NoDup. exact Hd.
Qed.

Lemma fold_step_keys (pairs : list (string * V)) :
  forall d k, In k (map fst (fold_left dict_step pairs d)) <->
              In k (map fst d) \/ In k (map fst pairs).
Proof.
  induction pairs as [|[k1 v1] pairs IH]; intros d k; simpl; [tauto|].
  rewrite IH. unfold dict_step. simpl. rewrite dict_set_keys.
  destruct (existsb (String.eqb k1) (map fst d)) eqn:E.
  - apply existsb_eqb_In in E. split; [tauto|].
    intros [H|[<-|H]]; auto.
  - rewrite in_app_iff. simpl. tauto.
Qed.

Lemma fold_step_distinct (pairs : list (string * V)) :
  forall d, NoDup (map fst (d ++ pairs)) -> fold_left dict_step pairs d = d ++ pairs.
Proof.
  induction pairs as [|[k1 v1] pairs IH]; intros d Hd; simpl.
  - rewrite app_nil_r. reflexivity.
  - assert (~ In k1 (map fst d)) as Hk.
    { rewrite map_app in Hd. simpl in Hd. apply NoDup_remove_2 in Hd.
      rewrite in_app_iff in Hd. tauto. }
    unfold dict_step at 2. simpl. rewrite dict_set_fresh by exact Hk.
    rewrite IH; rewrite <- app_assoc; simpl; [reflexivity|exact Hd].
Qed.

(** A comprehension keeps one entry per key, with the value of the last
    pair that has it; pairs with distinct keys are kept as they are. *)
Lemma dict_of_pairs_spec (pairs : list (string * V)) :
  NoDup (map fst (dict_of_pairs pairs))
  /\ (forall k, dict_lookup k (dict_of_pairs pairs) = last_value k pairs)
  /\ (forall k, In k (map fst (dict_of_pairs pairs)) <-> In k (map fst pairs))
  /\ (NoDup (map fst pairs) -> dict_of_pairs pairs = pairs).
Proof.
  unfold dict_of_pairs. change (fun d kv => dict_set (fst kv) (snd kv) d) with (@dict_step V).
  repeat split.
  - apply fold_step_NoDup. constructor.
  - intros k. rewrite fold_step_lookup. simpl.
    destruct (last_value k pairs); reflexivity.
  - rewrite fold_step_keys. simpl. tauto.
  - rewrite fold_step_keys. simpl. tauto.
  - intros H. apply (fold_step_distinct pairs []). exact H.
Qed.

End Dict.

(** The keys of a comprehension depend on the keys of the pairs only. *)
Lemma fold_step_keys_only {V W : Type} (p1 : list (string * V)) :
  forall (p2 : list (string * W)) d1 d2,
    map fst p1 = map fst p2 -> map fst d1 = map fst d2 ->
    map fst (fold_left dict_step p1 d1) = map fst (fold_left dict_step p2 d2).
Proof.
  induction p1 as [|[k1 v1] p1 IH]; intros [|[k2 w2] p2] d1 d2 Hp Hd;
    simpl in *; try discriminate; [exact Hd|].
  inversion Hp; subst. apply IH; [assumption|].
  unfold dict_step. simpl. rewrite !dict_set_keys, Hd. reflexivity.
Qed.

Lemma dict_of_pairs_keys_only {V W : Type} (p1 : list (string * V))
  (p2 : list (string * W)) :
  map fst p1 = map fst p2 ->
  map fst (dict_of_pairs p1) = map fst (dict_of_pairs p2).
Proof.
  intros H. apply (fold_step_keys_only p1 p2 [] []); auto.
Qed.

End DictFacts.

(* ====================================================================== *)
(** ** Dates as text, and steps back in the calendar *)
(* ====================================================================== *)

Module CalendarFacts.

Import Py Datetime Derived DatetimeFacts.
Local Open Scope string_scope.
Local Open Scope Z_scope.

(** Whatever the calendar accepts is written as an ISO date. *)
Lemma strftime_iso (dt : datetime) :
  valid dt = true -> is_iso_date (strftime_Ymd dt) = true.
Proof.
  unfold valid. intros Hv.
  destruct (valid_date_bounds _ _ _ Hv) as (Hy & Hm & Hd).
  pose proof (days_in_month_bounds (year dt) (month dt)) as Hdim.
  unfold strftime_Ymd, pad4, pad2. cbn [append]. unfold is_iso_date.
  destruct (digit_char_spec _ (decimal_digit (year dt) 1000 ltac:(lia))) as [D1 V1].
  destruct (digit_char_spec _ (decimal_digit (year dt) 100 ltac:(lia))) as [D2 V2].
  destruct (digit_char_spec _ (decimal_digit (year dt) 10 ltac:(lia))) as [D3 V3].
  destruct (digit_char_spec _ (decimal_digit0 (year dt))) as [D4 V4].
  destruct (digit_char_spec _ (decimal_digit (month dt) 10 ltac:(lia))) as [D5 V5].
  destruct (digit_char_spec _ (decimal_digit0 (month dt))) as [D6 V6].
  destruct (digit_char_spec _ (decimal_digit (day dt) 10 ltac:(lia))) as [D7 V7].
  destruct (digit_char_spec _ (decimal_digit0 (day dt))) as [D8 V8].
  rewrite D1, D2, D3, D4, D5, D6, D7, D8, V1, V2, V3, V4, V5, V6, V7, V8.
  cbn [andb Ascii.eqb Bool.eqb].
  replace (1000 * (year dt / 1000 mod 10) + 100 * (year dt / 100 mod 10)
           + 10 * (year dt / 10 mod 10) + year dt mod 10) with (year dt)
    by (Z.div_mod_to_equations; lia).
  replace (10 * (month dt / 10 mod 10) + month dt mod 10) with (month dt)
    by (Z.div_mod_to_equations; lia).
  replace (10 * (day dt / 10 mod 10) + day dt mod 10) with (day dt)
    by (Z.div_mod_to_equations; lia).
  exact Hv.
Qed.

(** *** Stepping back does not look at the time of day *)

Lemma prev_day_same_day (a b : datetime) :
  same_day a b ->
  match prev_day a, prev_day b with
  | Ok pa, Ok pb => same_day pa pb /\ hour pb = hour b /\ minute pb = minute b
                    /\ second pb = second b /\ microsecond pb = microsecond b
  | Raise ea, Raise eb => ea = eb
  | _, _ => False
  end.
Proof.
  unfold same_day, prev_day. intros (Ey & Em & Ed). rewrite Ey, Em, Ed.
  destruct (1 <? day b); [simpl; auto|].
  destruct (1 <? month b); [simpl; auto|].
  destruct (1 <? year b); simpl; auto.
Qed.

Lemma sub_days_same_day (k : nat) : forall a b : datetime,
  same_day a b ->
  match sub_days a k, sub_days b k with
  | Ok pa, Ok pb => same_day pa pb
  | Raise ea, Raise eb => ea = eb
  | _, _ => False
  end.
Proof.
  induction k as [|k IH]; intros a b Hab; simpl; [exact Hab|].
  pose proof (prev_day_same_day a b Hab) as Hp.
  destruct (prev_day a) as [pa|ea], (prev_day b) as [pb|eb]; simpl;
    try contradiction; [|exact Hp].
  apply IH. tauto.
Qed.

Lemma strftime_same_day (a b : datetime) :
  same_day a b -> strftime_Ymd a = strftime_Ymd b.
Proof.
  unfold same_day, strftime_Ymd. intros (-> & -> & ->). reflexivity.
Qed.

End CalendarFacts.

(* ====================================================================== *)
(** ** The fitted line: its values, its mean, and points already on a line *)
(* ====================================================================== *)

Module LineFacts.

Import NumPy Sklearn Ols RegressionFacts.
Local Open Scope R_scope.

Lemma predict_affine (m : LinearRegression) (X : list R) :
  predict m X = map (fun x => coef_ m * x + intercept_ m) X.
Proof. unfold predict. apply map_ext. intros x. ring. Qed.


Lemma length_fit_transform (X : list R) :
  List.length (fit_transform X) = List.length X.
Proof. unfold fit_transform, transform. apply length_map. Qed.

(** The standardized fit predicts what the direct fit predicts. *)
Lemma predict_fit_scaled (y : list R) :
  (2 <= List.length y)%nat ->
  predict (snd (App.fit_scaled y)) (fst (App.fit_scaled y)) =
  predict (LinearRegression_fit (arange (List.length y)) y)
    (arange (List.length y)).
Proof.
  intros Hn. set (n := List.length y) in *.
  pose proof (two_le_INR n Hn) as HN.
  destruct (scaler_arange n Hn) as [Hsc Hs].
  set (s := sqrt ((INR n - 1) * (INR n + 1) / 12)) in *.
  unfold App.fit_scaled, fit_transform. fold n. cbn [fst snd].
  rewrite Hsc, transform_affine. cbn [mean_ scale_].
  rewrite fit_affine;
    [| rewrite length_arange; reflexivity
     | rewrite length_arange; lra
     | apply Rinv_neq_0_compat; lra ].
  set (m := LinearRegression_fit (arange n) y).
  unfold predict. cbn [coef_ intercept_]. rewrite map_map.
  apply map_ext. intros x. field. lra.
Qed.

Lemma sse_nonneg (X y : list R) (b a : R) : 0 <= sse X y b a.
Proof.
  unfold sse. induction (combine X y) as [|p l IH]; simpl; [lra|].
  apply Rplus_le_le_0_compat; [apply Rle_0_sqr|exact IH].
Qed.

Lemma sse_on_line (X : list R) (b a : R) :
  sse X (map (fun x => b * x + a) X) b a = 0.
Proof.
  unfold sse. induction X as [|x l IH]; [reflexivity|].
  cbn [combine map fst snd]. rewrite Rsum_cons, IH. ring.
Qed.

(** Observations that lie on a line are fitted by that line. *)
Lemma fit_on_line (n : nat) (b a : R) :
  (2 <= n)%nat ->
  LinearRegression_fit (arange n) (map (fun x => b * x + a) (arange n)) =
  mk_model b a.
Proof.
  intros Hn. pose proof (two_le_INR n Hn) as HN.
  set (y := map (fun x => b * x + a) (arange n)).
  assert (least_squares (arange n) y b a) as Hls.
  { intros b' a'. unfold y. rewrite sse_on_line. apply sse_nonneg. }
  apply fit_least_squares in Hls.
  - destruct Hls as [Hb Ha].
    destruct (LinearRegression_fit (arange n) y) as [c i]. simpl in *.
    subst. reflexivity.
  - unfold y. rewrite length_map. reflexivity.
  - rewrite length_arange. lra.
  - rewrite cxx_arange by assumption. nra.
Qed.

End LineFacts.

(* ====================================================================== *)
(** ** The payloads of [generate_data] and [generate_regression_data] *)
(* ====================================================================== *)

Module PayloadFacts.

Import Py NumPy Datetime Sklearn App Ols Derived.
Import DatetimeFacts RegressionFacts DictFacts CalendarFacts LineFacts.
Local Open Scope string_scope.

Lemma map_fst_combine_eq {A B : Type} (l1 : list A) :
  forall l2 : list B,
    List.length l1 = List.length l2 -> map fst (combine l1 l2) = l1.
Proof.
  induction l1 as [|x l1 IH]; intros [|y l2] H; simpl in *;
    try discriminate; [reflexivity|].
  f_equal. apply IH. congruence.
Qed.

Lemma combine_rows (df : DataFrame) :
  combine (map (fun row => strftime_Ymd (fst row)) df)
    (map (fun v => PFloat (Fin v)) (map snd df)) = price_pairs df.
Proof.
  unfold price_pairs. induction df as [|[d p] df IH]; simpl; [reflexivity|].
  rewrite IH. reflexivity.
Qed.

Lemma float_dict_keys (dates : list string) (v1 v2 : list R) :
  List.length v1 = List.length dates -> List.length v2 = List.length dates ->
  payload_keys (float_dict dates v1) = payload_keys (float_dict dates v2).
Proof.
  intros H1 H2. unfold float_dict, payload_keys.
  apply dict_of_pairs_keys_only.
  rewrite !map_fst_combine_eq; rewrite ?length_map; auto.
Qed.

Lemma length_fit_scaled (y : list R) :
  List.length (fst (fit_scaled y)) = List.length y.
Proof.
  unfold fit_scaled. cbn [fst].
  rewrite length_fit_transform, length_arange. reflexivity.
Qed.

(** Reading the fields of the two payload shapes. *)
Lemma six_fields (p r c s i f : pyval) :
  let payload :=
    PDict [("prices", p); ("regression", r); ("companyName", c);
           ("slope", s); ("intercept", i); ("formula", f)] in
  payload_field "prices" payload = Some p
  /\ payload_field "regression" payload = Some r
  /\ payload_field "companyName" payload = Some c
  /\ payload_field "slope" payload = Some s
  /\ payload_field "intercept" payload = Some i
  /\ payload_field "formula" payload = Some f.
Proof. repeat split. Qed.

Lemma two_fields (p c : pyval) :
  let payload := PDict [("prices", p); ("companyName", c)] in
  payload_field "prices" payload = Some p
  /\ payload_field "companyName" payload = Some c.
Proof. repeat split. Qed.

Lemma length_predict_scaled (y : list R) :
  List.length (predict (snd (fit_scaled y)) (fst (fit_scaled y))) =
  List.length y.
Proof. unfold predict. rewrite length_map. apply length_fit_scaled. Qed.


Section Payloads.

Variable now : datetime.
Variable history : string -> string -> string -> result DataFrame.
Variable info : string -> result (list (string * pyval)).
Variable format_fixed : nat -> R -> string.

Local Abbreviation fetch := (fetch now history).
Local Abbreviation generate_regression_data_try :=
  (generate_regression_data_try now history info format_fixed).
Local Abbreviation generate_regression_data :=
  (generate_regression_data now history info format_fixed).
Local Abbreviation generate_data_try := (generate_data_try now history info).
Local Abbreviation generate_data := (generate_data now history info).

(** The payload of a frame with rows, field by field. *)
Lemma regression_try_rows (ticker : string) (sd ed : option string)
  (row : datetime * R) (rest : DataFrame) (i : list (string * pyval)) :
  fetch ticker sd ed = Ok (row :: rest) ->
  info ticker = Ok i ->
  generate_regression_data_try ticker sd ed =
  Ok (PDict
        [("prices",
          float_dict (map (fun r => strftime_Ymd (fst r)) (row :: rest))
            (map snd (row :: rest)));
         ("regression",
          float_dict (map (fun r => strftime_Ymd (fst r)) (row :: rest))
            (predict (snd (fit_scaled (map snd (row :: rest))))
               (fst (fit_scaled (map snd (row :: rest))))));
         ("companyName", dict_get "longName" (PStr ticker) i);
         ("slope",
          PFloat (fst (unscale (snd (fit_scaled (map snd (row :: rest))))
                         (List.length (row :: rest)))));
         ("intercept",
          PFloat (snd (unscale (snd (fit_scaled (map snd (row :: rest))))
                         (List.length (row :: rest)))));
         ("formula",
          PStr ("price = "
                ++ format_float format_fixed 4
                     (fst (unscale (snd (fit_scaled (map snd (row :: rest))))
                             (List.length (row :: rest))))
                ++ " * days + "
                ++ format_float format_fixed 2
                     (snd (unscale (snd (fit_scaled (map snd (row :: rest))))
                             (List.length (row :: rest))))))]).
Proof.
  intros Hf Hi. unfold App.generate_regression_data_try.
  rewrite Hf. cbn [bind].
  destruct (fit_scaled (map snd (row :: rest))) as [Xs model]. cbn [fst snd].
  rewrite Hi. cbn [bind].
  destruct (unscale model (List.length (row :: rest))) as [sl ic].
  reflexivity.
Qed.

Lemma data_try_rows (ticker : string) (sd ed : option string)
  (row : datetime * R) (rest : DataFrame) (i : list (string * pyval)) :
  fetch ticker sd ed = Ok (row :: rest) ->
  info ticker = Ok i ->
  generate_data_try ticker sd ed =
  Ok (PDict
        [("prices",
          float_dict (map (fun r => strftime_Ymd (fst r)) (row :: rest))
            (map snd (row :: rest)));
         ("companyName", dict_get "longName" (PStr ticker) i)]).
Proof.
  intros Hf Hi. unfold App.generate_data_try.
  rewrite Hf. cbn [bind]. rewrite Hi. reflexivity.
Qed.

(** X1: [prices] has one entry per date string, in the order the dates
    first appear; a date maps to the close of the last row that carries
    it; and when no date repeats the entries are the rows, in order.  The
    company name is the issuer's [longName], or the ticker without one. *)
Theorem prices_last_close (ticker : string) (sd ed : option string)
  (df : DataFrame) (i : list (string * pyval)) :
  fetch ticker sd ed = Ok df -> df <> [] -> info ticker = Ok i ->
  exists P,
    generate_data ticker sd ed =
    PDict [("prices", PDict P);
           ("companyName",
            match dict_lookup "longName" i with
            | Some name => name
            | None => PStr ticker
            end)]
    /\ NoDup (map fst P)
    /\ (forall k, dict_lookup k P = last_value k (price_pairs df))
    /\ (forall k, In k (map fst P) <->
                  In k (map (fun row => strftime_Ymd (fst row)) df))
    /\ (NoDup (map (fun row => strftime_Ymd (fst row)) df) ->
        P = price_pairs df).
Proof.
  intros Hf Hne Hi. destruct df as [|row rest]; [contradiction|].
  exists (dict_of_pairs (price_pairs (row :: rest))).
  destruct (dict_of_pairs_spec (price_pairs (row :: rest)))
    as (Hnd & Hlk & Hin & Hid).
  assert (map fst (price_pairs (row :: rest)) =
          map (fun r => strftime_Ymd (fst r)) (row :: rest)) as Hk.
  { unfold price_pairs. rewrite map_map. reflexivity. }
  split.
  - unfold App.generate_data.
    rewrite (data_try_rows ticker sd ed row rest i Hf Hi). cbn [try_except].
    unfold float_dict. rewrite combine_rows. reflexivity.
  - split; [exact Hnd|]. split; [exact Hlk|]. rewrite <- Hk.
    split; [exact Hin|exact Hid].
Qed.

(** X2: the regression payload always lists the same dates, in the same
    order, under [regression] as under [prices]. *)
Theorem regression_same_dates (ticker : string) (sd ed : option string) :
  option_map payload_keys
    (payload_field "regression" (generate_regression_data ticker sd ed)) =
  option_map payload_keys
    (payload_field "prices" (generate_regression_data ticker sd ed)).
Proof.
  unfold App.generate_regression_data.
  destruct (fetch ticker sd ed) as [[|row rest]|e] eqn:Hf.
  - unfold App.generate_regression_data_try. rewrite Hf. reflexivity.
  - destruct (info ticker) as [i|e] eqn:Hi.
    + rewrite (regression_try_rows ticker sd ed row rest i Hf Hi).
      cbn [try_except].
      match goal with |- context [PDict [(_, ?p); (_, ?r); (_, ?c); (_, ?s);
                                         (_, ?ic); (_, ?f)]] =>
        destruct (six_fields p r c s ic f) as (-> & -> & _) end.
      cbn [option_map]. f_equal. apply float_dict_keys.
      * rewrite length_predict_scaled, !length_map. reflexivity.
      * rewrite !length_map. reflexivity.
    + unfold App.generate_regression_data_try. rewrite Hf. cbn [bind].
      destruct (fit_scaled (map snd (row :: rest))) as [Xs model].
      rewrite Hi. reflexivity.
  - unfold App.generate_regression_data_try. rewrite Hf. reflexivity.
Qed.

(** X3: asking for the regression never changes [prices] or
    [companyName]: the two helpers agree on both fields, for every request
    and every answer of the provider whose closes are finite numbers. *)
Theorem regression_keeps_plain_fields (ticker : string)
  (sd ed : option string) :
  payload_field "prices" (generate_regression_data ticker sd ed) =
  payload_field "prices" (generate_data ticker sd ed)
  /\ payload_field "companyName" (generate_regression_data ticker sd ed) =
     payload_field "companyName" (generate_data ticker sd ed).
Proof.
  unfold App.generate_regression_data, App.generate_data.
  destruct (fetch ticker sd ed) as [[|row rest]|e] eqn:Hf.
  - unfold App.generate_regression_data_try, App.generate_data_try.
    rewrite Hf. split; reflexivity.
  - destruct (info ticker) as [i|e] eqn:Hi.
    + rewrite (regression_try_rows ticker sd ed row rest i Hf Hi).
      rewrite (data_try_rows ticker sd ed row rest i Hf Hi).
      split; reflexivity.
    + unfold App.generate_regression_data_try, App.generate_data_try.
      rewrite Hf. cbn [bind].
      destruct (fit_scaled (map snd (row :: rest))) as [Xs model].
      rewrite Hi. split; reflexivity.
  - unfold App.generate_regression_data_try, App.generate_data_try.
    rewrite Hf. split; reflexivity.
Qed.

(** X4: from two rows of finite closes on, the values under [regression]
    are the line [slope * day + intercept] of the payload's own [slope] and
    [intercept], taken at the day numbers 0, 1, ..., n-1 (an equality of
    exact arithmetic, met within floating-point tolerance by the code). *)
Theorem regression_on_payload_line (ticker : string) (sd ed : option string)
  (df : DataFrame) (i : list (string * pyval)) :
  fetch ticker sd ed = Ok df -> info ticker = Ok i ->
  (2 <= List.length df)%nat ->
  exists b a,
    payload_field "slope" (generate_regression_data ticker sd ed) =
    Some (PFloat (Fin b))
    /\ payload_field "intercept" (generate_regression_data ticker sd ed) =
       Some (PFloat (Fin a))
    /\ payload_field "regression" (generate_regression_data ticker sd ed) =
       Some (float_dict (map (fun row => strftime_Ymd (fst row)) df)
               (map (fun x => (b * x + a)%R) (arange (List.length df)))).
Proof.
  intros Hf Hi Hn. destruct df as [|row rest]; [simpl in Hn; lia|].
  pose proof (unscale_fit_scaled (map snd (row :: rest))) as Hu.
  pose proof (predict_fit_scaled (map snd (row :: rest))) as Hp.
  rewrite length_map in Hu, Hp. specialize (Hu Hn). specialize (Hp Hn).
  exists (coef_ (LinearRegression_fit (arange (List.length (row :: rest)))
                   (map snd (row :: rest)))),
         (intercept_ (LinearRegression_fit (arange (List.length (row :: rest)))
                        (map snd (row :: rest)))).
  unfold App.generate_regression_data.
  rewrite (regression_try_rows ticker sd ed row rest i Hf Hi).
  cbn [try_except]. rewrite Hu, Hp, predict_affine. cbn [fst snd].
  match goal with |- context [PDict [(_, ?p0); (_, ?r0); (_, ?c0); (_, ?s0);
                                     (_, ?i0); (_, ?f0)]] =>
    destruct (six_fields p0 r0 c0 s0 i0 f0) as (_ & -> & _ & -> & -> & _) end.
  split; [reflexivity|]. split; reflexivity.
Qed.


(** X6: closes that lie on a line [b * day + a] give that [b] as slope and
    that [a] as intercept, and the fitted values are the closes (equalities
    of exact arithmetic, met within floating-point tolerance by the
    code). *)
Theorem line_is_recovered (ticker : string) (sd ed : option string)
  (df : DataFrame) (i : list (string * pyval)) (b a : R) :
  fetch ticker sd ed = Ok df -> info ticker = Ok i ->
  (2 <= List.length df)%nat ->
  map snd df = map (fun x => (b * x + a)%R) (arange (List.length df)) ->
  payload_field "slope" (generate_regression_data ticker sd ed) =
  Some (PFloat (Fin b))
  /\ payload_field "intercept" (generate_regression_data ticker sd ed) =
     Some (PFloat (Fin a))
  /\ payload_field "regression" (generate_regression_data ticker sd ed) =
     payload_field "prices" (generate_regression_data ticker sd ed).
Proof.
  intros Hf Hi Hn Hline. destruct df as [|row rest]; [simpl in Hn; lia|].
  pose proof (unscale_fit_scaled (map snd (row :: rest))) as Hu.
  pose proof (predict_fit_scaled (map snd (row :: rest))) as Hp.
  rewrite length_map in Hu, Hp. specialize (Hu Hn). specialize (Hp Hn).
  unfold App.generate_regression_data.
  rewrite (regression_try_rows ticker sd ed row rest i Hf Hi).
  assert (LinearRegression_fit (arange (List.length (row :: rest)))
            (map snd (row :: rest)) = mk_model b a) as Hfit.
  { rewrite Hline. apply fit_on_line. exact Hn. }
  cbn [try_except]. rewrite Hu, Hp, predict_affine, Hfit.
  cbn [fst snd coef_ intercept_]. rewrite <- Hline.
  match goal with |- context [PDict [(_, ?p0); (_, ?r0); (_, ?c0); (_, ?s0);
                                     (_, ?i0); (_, ?f0)]] =>
    destruct (six_fields p0 r0 c0 s0 i0 f0) as (-> & -> & _ & -> & -> & _) end.
  repeat split.
Qed.

(** X7: for a frame with rows of finite closes, [slope] is a finite number
    exactly when there are at least two rows, and [nan] exactly when there
    is one (in exact arithmetic: float64 overflow aside). *)
Theorem slope_finite_iff (ticker : string) (sd ed : option string)
  (df : DataFrame) (i : list (string * pyval)) :
  fetch ticker sd ed = Ok df -> info ticker = Ok i -> df <> [] ->
  ((exists r,
      payload_field "slope" (generate_regression_data ticker sd ed) =
      Some (PFloat (Fin r)))
   <-> (2 <= List.length df)%nat)
  /\ (payload_field "slope" (generate_regression_data ticker sd ed) =
      Some (PFloat NaN)
      <-> List.length df = 1%nat).
Proof.
  intros Hf Hi Hne. destruct df as [|[d p] rest]; [contradiction|].
  unfold App.generate_regression_data.
  rewrite (regression_try_rows ticker sd ed (d, p) rest i Hf Hi).
  cbn [try_except].
  match goal with |- context [PDict [(_, ?p0); (_, ?r0); (_, ?c0); (_, ?s0);
                                     (_, ?i0); (_, ?f0)]] =>
    destruct (six_fields p0 r0 c0 s0 i0 f0) as (_ & _ & _ & -> & _) end.
  destruct rest as [|row2 rest].
  - destruct (unscale_single p) as (_ & Hfit & _ & Hun).
    cbn [map snd List.length]. rewrite Hfit. cbn [snd]. rewrite Hun.
    cbn [fst]. split; split.
    + intros [r Hr]. discriminate Hr.
    + intros H. lia.
    + reflexivity.
    + reflexivity.
  - pose proof (unscale_fit_scaled (map snd ((d, p) :: row2 :: rest))) as Hu.
    rewrite length_map in Hu. rewrite Hu by (simpl; lia). cbn [fst].
    split; split.
    + intros _. simpl. lia.
    + intros _. eexists. reflexivity.
    + intros H. discriminate H.
    + intros H. simpl in H. lia.
Qed.

(** X15: when the index entries of the frame are days of the calendar,
    every key of [prices] is an ISO date. *)
Theorem price_keys_are_iso (ticker : string) (sd ed : option string)
  (df : DataFrame) (i : list (string * pyval)) (P : list (string * pyval)) :
  fetch ticker sd ed = Ok df -> info ticker = Ok i ->
  Forall (fun row => valid (fst row) = true) df ->
  payload_field "prices" (generate_data ticker sd ed) = Some (PDict P) ->
  Forall (fun k => is_iso_date k = true) (map fst P).
Proof.
  intros Hf Hi Hvalid HP. destruct df as [|row rest].
  - unfold App.generate_data, App.generate_data_try in HP.
    rewrite Hf in HP. discriminate HP.
  - unfold App.generate_data in HP.
    rewrite (data_try_rows ticker sd ed row rest i Hf Hi) in HP.
    cbn [try_except] in HP.
    match type of HP with context [PDict [(_, ?p0); (_, ?c0)]] =>
      destruct (two_fields p0 c0) as (Hp0 & _) end.
    rewrite Hp0 in HP. unfold float_dict in HP. rewrite combine_rows in HP.
    inversion HP; subst P; clear HP.
    destruct (dict_of_pairs_spec (price_pairs (row :: rest)))
      as (_ & _ & Hin & _).
    apply Forall_forall. intros k Hk. apply Hin in Hk.
    unfold price_pairs in Hk. rewrite map_map in Hk.
    apply in_map_iff in Hk. destruct Hk as (r & <- & Hr).
    apply strftime_iso. cbn [fst].
    rewrite Forall_forall in Hvalid. apply Hvalid. exact Hr.
Qed.

End Payloads.

(** *** The theorems at sample requests *)

Import Samples MoreSamples.

Lemma prices_last_close_witness :
  exists P,
    generate_data clock repeated_rows named_info "MSFT" None None =
    PDict [("prices", PDict P);
           ("companyName", PStr "Microsoft Corporation")]
    /\ dict_lookup "2026-10-30" P = Some (PFloat (Fin 51)).
Proof.
  destruct (prices_last_close clock repeated_rows named_info "MSFT" None None
              [(friday, 50%R); (monday, 52%R); (friday, 51%R)]
              [("longName", PStr "Microsoft Corporation")]
              eq_refl ltac:(discriminate) eq_refl)
    as (P & Hpayload & _ & Hlookup & _).
  exists P. split; [exact Hpayload|].
  rewrite Hlookup. reflexivity.
Defined.

Lemma regression_on_payload_line_witness :
  exists b a,
    payload_field "slope"
      (generate_regression_data clock rising_rows no_info fixed "MSFT" None None)
    = Some (PFloat (Fin b))
    /\ payload_field "intercept"
         (generate_regression_data clock rising_rows no_info fixed "MSFT"
            None None)
       = Some (PFloat (Fin a))
    /\ payload_field "regression"
         (generate_regression_data clock rising_rows no_info fixed "MSFT"
            None None)
       = Some (float_dict ["2026-10-30"; "2026-11-02"; "2026-11-03"]
                 (map (fun x => (b * x + a)%R) (arange 3))).
Proof.
  apply (regression_on_payload_line clock rising_rows no_info fixed "MSFT"
           None None
           [(friday, 50%R); (monday, 52%R); (tuesday, 54%R)] []).
  - reflexivity.
  - reflexivity.
  - simpl. lia.
Defined.

Lemma rising_closes_on_line :
  map snd [(friday, 50%R); (monday, 52%R); (tuesday, 54%R)] =
  map (fun x => (2 * x + 50)%R) (arange 3).
Proof. unfold arange. simpl. repeat f_equal; lra. Qed.

Lemma line_is_recovered_witness :
  payload_field "slope"
    (generate_regression_data clock rising_rows no_info fixed "MSFT" None None)
  = Some (PFloat (Fin 2))
  /\ payload_field "intercept"
       (generate_regression_data clock rising_rows no_info fixed "MSFT"
          None None)
     = Some (PFloat (Fin 50))
  /\ payload_field "regression"
       (generate_regression_data clock rising_rows no_info fixed "MSFT"
          None None)
     = payload_field "prices"
         (generate_regression_data clock rising_rows no_info fixed "MSFT"
            None None).
Proof.
  apply (line_is_recovered clock rising_rows no_info fixed "MSFT" None None
           [(friday, 50%R); (monday, 52%R); (tuesday, 54%R)] [] 2 50).
  - reflexivity.
  - reflexivity.
  - simpl. lia.
  - exact rising_closes_on_line.
Defined.

Lemma slope_finite_iff_witness :
  payload_field "slope"
    (generate_regression_data clock one_row no_info fixed "MSFT" None None)
  = Some (PFloat NaN)
  /\ (exists r,
        payload_field "slope"
          (generate_regression_data clock two_rows no_info fixed "MSFT"
             None None)
        = Some (PFloat (Fin r))).
Proof.
  split.
  - apply (proj2 (slope_finite_iff clock one_row no_info fixed "MSFT" None None
                    [(friday, 100%R)] [] eq_refl eq_refl
                    ltac:(discriminate))).
    reflexivity.
  - apply (proj1 (slope_finite_iff clock two_rows no_info fixed "MSFT" None None
                    [(friday, 100%R); (monday, 104%R)] [] eq_refl eq_refl
                    ltac:(discriminate))).
    simpl. lia.
Defined.

Lemma price_keys_are_iso_witness :
  Forall (fun k => is_iso_date k = true) ["2026-10-30"; "2026-11-02"].
Proof.
  apply (price_keys_are_iso clock two_rows no_info "MSFT" None None
           [(friday, 100%R); (monday, 104%R)] []
           [("2026-10-30", PFloat (Fin 100)); ("2026-11-02", PFloat (Fin 104))]).
  - reflexivity.
  - reflexivity.
  - repeat constructor.
  - reflexivity.
Defined.


(** The [regression] parameter shows in the answer: six fields with it, two
    without. *)
Example regression_flag_is_visible :
  payload_keys
    (body (get_data clock two_rows no_info fixed [("regression", "TRUE")])) =
  ["prices"; "regression"; "companyName"; "slope"; "intercept"; "formula"]
  /\ payload_keys
       (body (get_data clock two_rows no_info fixed [("regression", "1")])) =
     ["prices"; "companyName"].
Proof.
  assert (fetch clock two_rows "AAPL" None None =
          Ok [(friday, 100%R); (monday, 104%R)]) as Hf by reflexivity.
  split.
  - change (get_data clock two_rows no_info fixed [("regression", "TRUE")])
      with (jsonify (generate_regression_data clock two_rows no_info fixed
                       "AAPL" None None)).
    unfold generate_regression_data.
    rewrite (regression_try_rows clock two_rows no_info fixed "AAPL" None None
               (friday, 100%R) [(monday, 104%R)] [] Hf eq_refl).
    reflexivity.
  - change (get_data clock two_rows no_info fixed [("regression", "1")])
      with (jsonify (generate_data clock two_rows no_info "AAPL" None None)).
    unfold generate_data.
    rewrite (data_try_rows clock two_rows no_info "AAPL" None None
               (friday, 100%R) [(monday, 104%R)] [] Hf eq_refl).
    reflexivity.
Qed.

End PayloadFacts.

(* ====================================================================== *)
(** ** Fetching: what reaches the provider *)
(* ====================================================================== *)

Module FetchFacts.

Import Py NumPy Datetime Sklearn App Derived.
Import DatetimeFacts CalendarFacts.
Local Open Scope string_scope.

Section Windows.

Variable history : string -> string -> string -> result DataFrame.
Variable info : string -> result (list (string * pyval)).
Variable format_fixed : nat -> R -> string.

(** The clock matters through its calendar day only. *)
Lemma fetch_same_day (now now' : datetime) (ticker : string)
  (sd ed : option string) :
  same_day now now' ->
  fetch now history ticker sd ed = fetch now' history ticker sd ed.
Proof.
  intros Hsame.
  assert (bind (bind (sub_days now 1) (fun end_dt =>
                bind (sub_days end_dt 90) (fun start_dt =>
                Ok (start_dt, end_dt))))
            (fun w => history ticker (strftime_Ymd (fst w))
                        (strftime_Ymd (snd w))) =
          bind (bind (sub_days now' 1) (fun end_dt =>
                bind (sub_days end_dt 90) (fun start_dt =>
                Ok (start_dt, end_dt))))
            (fun w => history ticker (strftime_Ymd (fst w))
                        (strftime_Ymd (snd w)))) as Hdefault.
  { pose proof (sub_days_same_day 1 now now' Hsame) as H1.
    destruct (sub_days now 1) as [e1|x1], (sub_days now' 1) as [e2|x2];
      try contradiction; cbn [bind]; [|congruence].
    pose proof (sub_days_same_day 90 e1 e2 H1) as H2.
    destruct (sub_days e1 90) as [s1|y1], (sub_days e2 90) as [s2|y2];
      try contradiction; cbn [bind fst snd]; [|congruence].
    rewrite (strftime_same_day s1 s2 H2), (strftime_same_day e1 e2 H1).
    reflexivity. }
  unfold fetch, resolve_dates.
  destruct sd as [[|c r]|]; destruct ed as [[|c' r']|];
    try exact Hdefault; reflexivity.
Qed.

(** X12: two requests served on the same calendar day get the same answer
    from [/get-data], whatever the time of day: the default window is cut
    at dates, not at instants. *)
Theorem window_ignores_time_of_day (now now' : datetime) (a : args) :
  same_day now now' ->
  get_data now history info format_fixed a =
  get_data now' history info format_fixed a.
Proof.
  intros Hsame. unfold get_data, generate_regression_data, generate_data,
    generate_regression_data_try, generate_data_try.
  rewrite !(fetch_same_day now now' _ _ _ Hsame). reflexivity.
Qed.

Variable now : datetime.

Local Abbreviation fetch := (fetch now history).
Local Abbreviation generate_regression_data :=
  (generate_regression_data now history info format_fixed).
Local Abbreviation generate_data := (generate_data now history info).
Local Abbreviation get_data := (get_data now history info format_fixed).

(** X10: when both dates are given, in ASCII text, and one of them is not
    accepted by [strptime], [/get-data] still answers 200, with the default
    payload of the helper it dispatches to, whatever the provider would
    have said. *)
Theorem malformed_date_answer (a : args) (s e : string) :
  args_get "start_date" a = Some s -> args_get "end_date" a = Some e ->
  s <> EmptyString -> e <> EmptyString ->
  is_ascii s = true -> is_ascii e = true ->
  (exists ex, strptime_Ymd s = Raise ex)
  \/ (exists ex, strptime_Ymd e = Raise ex) ->
  get_data a =
  mk_response 200
    (if include_regression a
     then default_regression (args_get_default "ticker" "AAPL" a)
     else default_data (args_get_default "ticker" "AAPL" a)).
Proof.
  intros Hs He Hns Hne _ _ Hbad.
  assert (exists ex,
            fetch (args_get_default "ticker" "AAPL" a) (Some s) (Some e) =
            Raise ex) as [ex Hf].
  { unfold App.fetch, resolve_dates.
    destruct s as [|c r]; [contradiction|].
    destruct e as [|c' r']; [contradiction|].
    destruct (strptime_Ymd (String c r)) as [ds|x1]; cbn [bind];
      [|eexists; reflexivity].
    destruct (strptime_Ymd (String c' r')) as [de|x2]; cbn [bind];
      [|eexists; reflexivity].
    destruct Hbad as [[x H]|[x H]]; discriminate H. }
  unfold App.get_data, App.generate_regression_data, App.generate_data,
    generate_regression_data_try, generate_data_try.
  rewrite Hs, He, Hf. cbn [bind try_except].
  destruct (include_regression a); reflexivity.
Qed.

(** X11: a date given alone (or given empty) is ignored: both helpers
    answer as if no date had been given. *)
Theorem lone_date_ignored (ticker : string) (sd ed : option string) :
  truthy sd = false \/ truthy ed = false ->
  generate_data ticker sd ed = generate_data ticker None None
  /\ generate_regression_data ticker sd ed =
     generate_regression_data ticker None None.
Proof.
  intros H.
  assert (fetch ticker sd ed = fetch ticker None None) as Hf.
  { unfold App.fetch, resolve_dates.
    destruct sd as [[|c r]|]; destruct ed as [[|c' r']|]; simpl in H;
      try reflexivity; destruct H; discriminate. }
  unfold App.generate_data, App.generate_regression_data,
    generate_regression_data_try, generate_data_try.
  rewrite Hf. split; reflexivity.
Qed.

End Windows.

(** *** The theorems at sample requests *)

Import Samples MoreSamples.

Lemma window_ignores_time_of_day_witness :
  get_data clock two_rows no_info fixed [("ticker", "MSFT")] =
  get_data evening two_rows no_info fixed [("ticker", "MSFT")].
Proof.
  apply window_ignores_time_of_day. repeat split.
Defined.

Lemma malformed_date_answer_witness :
  get_data clock two_rows no_info fixed
    [("start_date", "2023-02-29"); ("end_date", "2023-03-31")] =
  mk_response 200 (default_data "AAPL").
Proof.
  apply (malformed_date_answer two_rows no_info fixed clock
           [("start_date", "2023-02-29"); ("end_date", "2023-03-31")]
           "2023-02-29" "2023-03-31");
    try reflexivity; try discriminate.
  left. eexists. reflexivity.
Defined.

Lemma lone_date_ignored_witness :
  generate_data clock two_rows no_info "MSFT" (Some "2024-01-01") None =
  generate_data clock two_rows no_info "MSFT" None None
  /\ generate_regression_data clock two_rows no_info fixed "MSFT"
       (Some "2024-01-01") None =
     generate_regression_data clock two_rows no_info fixed "MSFT" None None.
Proof.
  apply lone_date_ignored. right. reflexivity.
Defined.

End FetchFacts.

(* ====================================================================== *)
(** ** The hedge route and its two tickers *)
(* ====================================================================== *)

Module TickerFacts.

Import Py NumPy Datetime App Derived DispatchFacts.
Local Open Scope string_scope.

Section Views.

Variable analyze_hedge_relationship :
  string -> string -> option string -> option string -> result pyval.

Local Abbreviation analyze_hedge := (analyze_hedge analyze_hedge_relationship).

(** X14: [/analyze-hedge] does not catch what the analyzer raises: with
    both tickers given, the analyzer's exception leaves the view; and when
    the view does answer, the status is 400 exactly when a ticker is
    missing or empty, and 200 otherwise. *)
Theorem analyze_hedge_outcomes (a : args) :
  (forall t1 t2 e,
     args_get "ticker1" a = Some t1 -> args_get "ticker2" a = Some t2 ->
     t1 <> EmptyString -> t2 <> EmptyString ->
     analyze_hedge_relationship t1 t2
       (args_get "start_date" a) (args_get "end_date" a) = Raise e ->
     analyze_hedge a = Raise e)
  /\ (forall r,
        analyze_hedge a = Ok r ->
        (status r = 400%Z <->
         truthy (args_get "ticker1" a) = false
         \/ truthy (args_get "ticker2" a) = false)
        /\ (status r = 200%Z <->
            truthy (args_get "ticker1" a) = true
            /\ truthy (args_get "ticker2" a) = true)).
Proof.
  unfold App.analyze_hedge. split.
  - intros t1 t2 e H1 H2 Hn1 Hn2 Hr. rewrite H1, H2.
    destruct t1 as [|c1 r1]; [contradiction|].
    destruct t2 as [|c2 r2]; [contradiction|].
    rewrite Hr. reflexivity.
  - intros r.
    destruct (args_get "ticker1" a) as [[|c1 r1]|];
      destruct (args_get "ticker2" a) as [[|c2 r2]|]; simpl truthy;
      try (intros H; inversion H; subst; simpl;
           split; split; intros; auto; try discriminate;
           destruct H0; discriminate).
    destruct (analyze_hedge_relationship _ _ _ _) as [v|e]; simpl;
      [|discriminate].
    intros H; inversion H; subst; simpl.
    split; split; intros H0; auto; try discriminate.
    destruct H0; discriminate.
Qed.

End Views.

(** *** The theorems at sample requests *)

Import Samples MoreSamples.

Lemma analyze_hedge_outcomes_witness :
  analyze_hedge analyzer_fails [("ticker1", "AAPL"); ("ticker2", "MSFT")] =
  Raise (mk_exn "ValueError" "series too short")
  /\ (status (mk_response 400
                (PDict [("error", PStr "Both tickers are required")])) = 400%Z
      <-> truthy (args_get "ticker1" [("ticker2", "MSFT")]) = false
          \/ truthy (args_get "ticker2" [("ticker2", "MSFT")]) = false).
Proof.
  split.
  - apply (proj1 (analyze_hedge_outcomes analyzer_fails
                    [("ticker1", "AAPL"); ("ticker2", "MSFT")])
             "AAPL" "MSFT"); try reflexivity; discriminate.
  - apply (proj2 (analyze_hedge_outcomes analyzer [("ticker2", "MSFT")])).
    reflexivity.
Defined.

End TickerFacts.
